(** * FRITZ!SmartHome light adapter (homeassistant/components/fritzbox/light.py)

    A shallow embedding of [FritzboxLight] and of the two nearest-value
    searches it performs, together with the properties of the adapter
    that its specification states.

    Conventions of the embedding.
    - Python [int] is [Z].  The colours and colour temperatures a device
      reports are integers.
    - The hue and saturation requested by the platform are Python floats
      ([tuple[float, float]]); a finite float denotes a rational, so a
      request is a pair of [Q].  The rounding of the float subtraction
      [x - hs_color[0]] is not modelled.
    - A Python exception is a value of [exn]; code that may raise returns
      a [result].
    - The [async] command methods run in [Async]: they append every call
      made to a collaborator (device or coordinator) to a log, and the
      environment decides whether that call raises. *)

From Stdlib Require Import ZArith QArith Qabs List Lia Lqa Bool.
From stdpp Require Import gmap strings.
Import ListNotations.

Local Open Scope Z_scope.

(** ** Exceptions and results *)

Inductive exn : Type :=
| ValueError                        (* min() of an empty sequence *)
| ZeroDivisionError                 (* 1000000 / 0 *)
| CollaboratorError (kind : string) (* raised by the device or the coordinator *).

Inductive result (A : Type) : Type :=
| Ok (a : A)
| Raise (e : exn).
Arguments Ok {A} a.
Arguments Raise {A} e.

#[global] Instance result_ret : MRet result := fun _ a => Ok a.
#[global] Instance result_bind : MBind result := fun _ _ f r =>
  match r with
  | Ok a => f a
  | Raise e => Raise e
  end.

(** ** Python's [<] on the key types used by [min] *)

Class PyLt (K : Type) := py_lt : K -> K -> bool.

(** The comparisons used here are strict weak orders. *)
Class PyLtLaws (K : Type) `{PyLt K} : Prop := {
  py_lt_irrefl : forall a, py_lt a a = false;
  py_lt_trans : forall a b c,
      py_lt a b = true -> py_lt b c = true -> py_lt a c = true;
  py_ge_trans : forall a b c,
      py_lt a b = false -> py_lt b c = false -> py_lt a c = false
}.

#[global] Instance Z_py_lt : PyLt Z := Z.ltb.

Definition Qltb (a b : Q) : bool := negb (Qle_bool b a).
#[global] Instance Q_py_lt : PyLt Q := Qltb.

(** ** The builtin [min(iterable, key=...)]

    [min] takes the first item as the current best and replaces it by a
    later item only when that item's key is strictly smaller; on an
    empty iterable it raises [ValueError]. *)

Section PyMin.
Context {A K : Type} `{PyLt K}.
Variable key : A -> K.

Fixpoint min_scan (best : A) (rest : list A) : A :=
  match rest with
  | [] => best
  | x :: rest' =>
      if py_lt (key x) (key best) then min_scan x rest'
      else min_scan best rest'
  end.

Definition py_min (l : list A) : result A :=
  match l with
  | [] => Raise ValueError
  | x :: rest => Ok (min_scan x rest)
  end.
End PyMin.

(** ** Data model *)

(** [HsColor] of [.model]: a (hue, saturation) pair as the device lists it. *)
Definition HsColor : Type := Z * Z.

(** Modelled from the spec: the colour-mode names imported from
    [homeassistant.components.light]. *)
Definition COLOR_MODE_COLOR_TEMP : string := "color_temp".
Definition COLOR_MODE_HS : string := "hs".
Definition COLOR_MODE_ONOFF : string := "onoff".

(** The snapshot of one device held by the coordinator
    ([coordinator.data[ain]], a [FritzhomeDevice] of pyfritzhome). *)
Module FritzhomeDevice.
Record t : Type := {
  present : bool;
  state : bool;
  level : option Z;
  hue : option Z;
  saturation : option Z;
  color_temp : option Z;           (* Kelvin *)
  color_mode : Z;
  supported_color_mode : Z;
  get_colors : list (string * list HsColor);  (* dict, in insertion order *)
  get_color_temps : list Z
}.
End FritzhomeDevice.

(** The attributes [__init__] stores on the entity. *)
Record FritzboxLight : Type := {
  _supported_colors : list HsColor;
  _supported_color_temps : list Z;
  _min_mireds : Z;
  _max_mireds : Z;
  _supported_color_mode : gset string
}.

(** [FritzboxLight.__init__], given the snapshot [self.device] at
    construction time. *)
Definition init (device : FritzhomeDevice.t) : FritzboxLight :=
  {| _supported_colors :=
       concat (map snd (FritzhomeDevice.get_colors device));
     _supported_color_temps := FritzhomeDevice.get_color_temps device;
     _min_mireds := 153;
     _max_mireds := 370;
     _supported_color_mode :=
       if FritzhomeDevice.supported_color_mode device =? 1
       then {[ COLOR_MODE_COLOR_TEMP ]}
       else if FritzhomeDevice.supported_color_mode device =? 4
       then {[ COLOR_MODE_HS ]}
       else if FritzhomeDevice.supported_color_mode device =? 5
            then {[ COLOR_MODE_HS; COLOR_MODE_COLOR_TEMP ]}
       else {[ COLOR_MODE_ONOFF ]} |}.

(** ** The nearest-value searches *)

Definition hue_key (hs_color : Q * Q) (x : Z) : Q :=
  Qabs (inject_Z x - fst hs_color).
Definition sat_key (hs_color : Q * Q) (x : Z) : Q :=
  Qabs (inject_Z x - snd hs_color).

Definition _nearest_supported_color (self : FritzboxLight) (hs_color : Q * Q)
  : result HsColor :=
  let hue_values := map fst (_supported_colors self) in
  nearest_hue_value ← py_min (hue_key hs_color) hue_values;
  let sat_values :=
    map snd (filter (fun color : HsColor => fst color = nearest_hue_value)
                    (_supported_colors self)) in
  nearest_sat_value ← py_min (sat_key hs_color) sat_values;
  Ok (nearest_hue_value, nearest_sat_value).

Definition _nearest_supported_color_temp (self : FritzboxLight) (color_temp : Z)
  : result Z :=
  py_min (fun x => Z.abs (x - color_temp)) (_supported_color_temps self).

(** ** Calls to the collaborators and the [Async] monad *)

(** The calls the command methods make: the four device-control calls
    dispatched through [hass.async_add_executor_job], and
    [coordinator.async_refresh]. *)
Inductive Call : Type :=
| SetColor (hs_color : HsColor)
| SetColorTemp (kelvin : Z)
| SetStateOn
| SetStateOff
| AsyncRefresh.

Definition is_device_command (c : Call) : bool :=
  match c with
  | AsyncRefresh => false
  | _ => true
  end.

(** The environment: given the calls made so far and the next call,
    [None] when the call completes and [Some e] when it raises [e]. *)
Definition Env : Type := list Call -> Call -> option exn.

Definition Async (A : Type) : Type :=
  Env -> list Call -> list Call * result A.

#[global] Instance Async_ret : MRet Async := fun _ a _ log => (log, Ok a).
#[global] Instance Async_bind : MBind Async := fun _ _ f m env log =>
  match m env log with
  | (log', Ok a) => f a env log'
  | (log', Raise e) => (log', Raise e)
  end.

(** [await collaborator_call(...)]: the call is made, then either
    completes or raises into the awaiting method. *)
Definition await (c : Call) : Async unit := fun env log =>
  (log ++ [c], match env log c with
               | None => Ok tt
               | Some e => Raise e
               end).

(** Plain (non-awaiting) code inside an [async] method. *)
Definition pure {A : Type} (r : result A) : Async A := fun _ log => (log, r).

(** The calls a method run appended to the log. *)
Definition issued {A : Type} (m : Async A) (env : Env) (log : list Call)
  : list Call :=
  drop (length log) (fst (m env log)).

Definition outcome {A : Type} (m : Async A) (env : Env) (log : list Call)
  : result A :=
  snd (m env log).

(** The keyword arguments [async_turn_on] looks at; a key that is not in
    [kwargs] is [None]. *)
Record Kwargs : Type := {
  ATTR_HS_COLOR : option (Q * Q);
  ATTR_COLOR_TEMP : option Z      (* mireds *)
}.

(** ** The entity

    [color_temperature_kelvin_to_mired] and
    [color_temperature_mired_to_kelvin] are imported from
    [homeassistant.util.color]; the entity is verified for arbitrary
    conversion functions, which may raise. *)

Section Entity.
Variable color_temperature_kelvin_to_mired : Z -> result Z.
Variable color_temperature_mired_to_kelvin : Z -> result Z.

Definition is_on (device : FritzhomeDevice.t) : bool :=
  if negb (FritzhomeDevice.present device) then false
  else FritzhomeDevice.state device.

Definition brightness (device : FritzhomeDevice.t) : option Z :=
  FritzhomeDevice.level device.

Definition supported_color_modes (self : FritzboxLight) : gset string :=
  _supported_color_mode self.

Definition hs_color (device : FritzhomeDevice.t) : option (Z * Z) :=
  match FritzhomeDevice.hue device, FritzhomeDevice.saturation device with
  | Some h, Some s => Some (h, s)
  | _, _ => None
  end.

Definition color_temp (device : FritzhomeDevice.t) : result (option Z) :=
  match FritzhomeDevice.color_temp device with
  | Some kelvin =>
      mired ← color_temperature_kelvin_to_mired kelvin; Ok (Some mired)
  | None => Ok None
  end.

Definition color_mode (device : FritzhomeDevice.t) : option string :=
  if FritzhomeDevice.color_mode device =? 1 then Some COLOR_MODE_COLOR_TEMP
  else if FritzhomeDevice.color_mode device =? 4 then Some COLOR_MODE_HS
  else None.

Definition min_mireds (self : FritzboxLight) : Z := _min_mireds self.
Definition max_mireds (self : FritzboxLight) : Z := _max_mireds self.

(** [if ATTR_HS_COLOR in kwargs and self._supported_colors: ... elif
    ATTR_COLOR_TEMP in kwargs and self._supported_color_temps: ...
    else: ...], then the refresh.  A list is true when it is not
    empty. *)
Definition async_turn_on (self : FritzboxLight) (kwargs : Kwargs)
  : Async unit :=
  match ATTR_HS_COLOR kwargs, _supported_colors self with
  | Some requested, _ :: _ =>
      hs_color ← pure (_nearest_supported_color self requested);
      await (SetColor hs_color)
  | _, _ =>
      match ATTR_COLOR_TEMP kwargs, _supported_color_temps self with
      | Some mireds, _ :: _ =>
          kelvin ← pure (color_temperature_mired_to_kelvin mireds);
          color_temp ← pure (_nearest_supported_color_temp self kelvin);
          await (SetColorTemp color_temp)
      | _, _ => await SetStateOn
      end
  end ≫= fun _ => await AsyncRefresh.

Definition async_turn_off (self : FritzboxLight) : Async unit :=
  await SetStateOff ≫= fun _ => await AsyncRefresh.

(** *** The entity over time

    The entity object, the coordinator's current snapshot of its
    device, and the log of calls.  The coordinator may replace the
    snapshot at any time; the command methods read [self] and never
    assign to it. *)
Record System : Type := {
  entity : FritzboxLight;
  data : FritzhomeDevice.t;
  calls : list Call
}.

Inductive Event : Type :=
| CoordinatorUpdate (device : FritzhomeDevice.t)
| TurnOn (kwargs : Kwargs) (env : Env)
| TurnOff (env : Env).

Definition step (sys : System) (ev : Event) : System :=
  match ev with
  | CoordinatorUpdate device =>
      {| entity := entity sys; data := device; calls := calls sys |}
  | TurnOn kwargs env =>
      {| entity := entity sys; data := data sys;
         calls := fst (async_turn_on (entity sys) kwargs env (calls sys)) |}
  | TurnOff env =>
      {| entity := entity sys; data := data sys;
         calls := fst (async_turn_off (entity sys) env (calls sys)) |}
  end.

(** The state after setup created the entity for [device]. *)
Definition created (device : FritzhomeDevice.t) : System :=
  {| entity := init device; data := device; calls := [] |}.

Definition reachable (device : FritzhomeDevice.t) (sys : System) : Prop :=
  exists evs : list Event, sys = fold_left step evs (created device).
End Entity.

(** ** The conversions of [homeassistant.util.color] *)

Module Color.
(** Modelled from the spec: [color_temperature_kelvin_to_mired] of
    [homeassistant.util.color], which is not part of this file.  The
    spec gives [mired = 1_000_000 / kelvin] with an integer result;
    the quotient is rounded down, and dividing by zero raises. *)
Definition color_temperature_kelvin_to_mired (kelvin_temperature : Z)
  : result Z :=
  if kelvin_temperature =? 0 then Raise ZeroDivisionError
  else Ok (1000000 / kelvin_temperature).

(** Modelled from the spec: [color_temperature_mired_to_kelvin] of
    [homeassistant.util.color], the same reciprocal formula in the
    other direction. *)
Definition color_temperature_mired_to_kelvin (mired_temperature : Z)
  : result Z :=
  if mired_temperature =? 0 then Raise ZeroDivisionError
  else Ok (1000000 / mired_temperature).

(** Kelvin to mireds and back. *)
Definition roundtrip (kelvin : Z) : result Z :=
  mired ← color_temperature_kelvin_to_mired kelvin;
  color_temperature_mired_to_kelvin mired.
End Color.

(** ** Auxiliary definitions for the statements *)

(** The device-control calls among a list of calls. *)
Definition device_commands (l : list Call) : list Call :=
  filter (fun c => is_device_command c = true) l.

(** The snapshot [device] with its presence flag replaced. *)
Definition set_present (b : bool) (device : FritzhomeDevice.t)
  : FritzhomeDevice.t :=
  {| FritzhomeDevice.present := b;
     FritzhomeDevice.state := FritzhomeDevice.state device;
     FritzhomeDevice.level := FritzhomeDevice.level device;
     FritzhomeDevice.hue := FritzhomeDevice.hue device;
     FritzhomeDevice.saturation := FritzhomeDevice.saturation device;
     FritzhomeDevice.color_temp := FritzhomeDevice.color_temp device;
     FritzhomeDevice.color_mode := FritzhomeDevice.color_mode device;
     FritzhomeDevice.supported_color_mode :=
       FritzhomeDevice.supported_color_mode device;
     FritzhomeDevice.get_colors := FritzhomeDevice.get_colors device;
     FritzhomeDevice.get_color_temps :=
       FritzhomeDevice.get_color_temps device |}.

(** ** Concrete entities, snapshots and environments *)

Definition light_of (colors : list HsColor) (temps : list Z) : FritzboxLight :=
  {| _supported_colors := colors; _supported_color_temps := temps;
     _min_mireds := 153; _max_mireds := 370;
     _supported_color_mode := {[ COLOR_MODE_HS; COLOR_MODE_COLOR_TEMP ]} |}.

Definition bulb (present state : bool) (color_mode supported_color_mode : Z)
  : FritzhomeDevice.t :=
  {| FritzhomeDevice.present := present;
     FritzhomeDevice.state := state;
     FritzhomeDevice.level := Some 128;
     FritzhomeDevice.hue := Some 35;
     FritzhomeDevice.saturation := Some 140;
     FritzhomeDevice.color_temp := Some 2700;
     FritzhomeDevice.color_mode := color_mode;
     FritzhomeDevice.supported_color_mode := supported_color_mode;
     FritzhomeDevice.get_colors :=
       [("Rot", [(358, 180); (358, 112)]); ("Orange", [(35, 214); (35, 140)])];
     FritzhomeDevice.get_color_temps := [2700; 3000; 4000; 6500] |}.

(** A snapshot that differs from [bulb] in its Kelvin field. *)
Definition bulb_at (present : bool) (kelvin : option Z) : FritzhomeDevice.t :=
  {| FritzhomeDevice.present := present;
     FritzhomeDevice.state := true;
     FritzhomeDevice.level := Some 128;
     FritzhomeDevice.hue := Some 35;
     FritzhomeDevice.saturation := Some 140;
     FritzhomeDevice.color_temp := kelvin;
     FritzhomeDevice.color_mode := 1;
     FritzhomeDevice.supported_color_mode := 5;
     FritzhomeDevice.get_colors := [("Orange", [(35, 214); (35, 140)])];
     FritzhomeDevice.get_color_temps := [2700; 3000; 4000; 6500] |}.

Definition always_ok : Env := fun _ _ => None.
Definition device_fails (e : exn) : Env := fun _ c =>
  if is_device_command c then Some e else None.

(** * Properties *)

(** ** The examples of the specification *)

Example nearest_color_spec_example :
  _nearest_supported_color (light_of [(10,50); (10,80); (40,90)] [])
                           (12#1, 60#1)%Q = Ok (10, 50).
Proof. reflexivity. Qed.

Example nearest_temp_spec_example :
  _nearest_supported_color_temp (light_of [] [2700; 3000; 4000; 6500]) 5000
  = Ok 4000.
Proof. reflexivity. Qed.

Example turn_on_spec_example :
  async_turn_on Color.color_temperature_mired_to_kelvin
    (light_of [] [2700; 3000; 4000; 6500])
    {| ATTR_HS_COLOR := None; ATTR_COLOR_TEMP := Some 200 |} always_ok []
  = ([SetColorTemp 4000; AsyncRefresh], Ok tt).
Proof. reflexivity. Qed.

(** ** The comparisons are strict weak orders *)

Lemma Qltb_lt (a b : Q) : Qltb a b = true <-> (a < b)%Q.
Proof.
  unfold Qltb. rewrite negb_true_iff. split.
  - intros Hle. apply Qnot_le_lt. intros Hba.
    apply Qle_bool_iff in Hba. congruence.
  - intros Hlt. destruct (Qle_bool b a) eqn:Hle; [|reflexivity].
    apply Qle_bool_iff in Hle. exfalso. exact (Qlt_not_le _ _ Hlt Hle).
Qed.

Lemma Qltb_ge (a b : Q) : Qltb a b = false <-> (b <= a)%Q.
Proof.
  unfold Qltb. rewrite negb_false_iff. apply Qle_bool_iff.
Qed.

#[global] Instance Z_py_lt_laws : PyLtLaws Z.
Proof.
  split; unfold py_lt, Z_py_lt; intros.
  - apply Z.ltb_irrefl.
  - apply Z.ltb_lt. apply Z.ltb_lt in H, H0. lia.
  - apply Z.ltb_ge. apply Z.ltb_ge in H, H0. lia.
Qed.

#[global] Instance Q_py_lt_laws : PyLtLaws Q.
Proof.
  split; unfold py_lt, Q_py_lt; intros.
  - apply Qltb_ge. apply Qle_refl.
  - apply Qltb_lt. apply Qltb_lt in H, H0. eapply Qlt_trans; eassumption.
  - apply Qltb_ge. apply Qltb_ge in H, H0. eapply Qle_trans; eassumption.
Qed.

(** ** [min] returns the first item with a least key *)

Section PyMinFacts.
Context {A K : Type} `{PyLtLaws K}.
Variable key : A -> K.

Lemma py_lt_ge_lt (a b c : K) :
  py_lt a b = true -> py_lt c b = false -> py_lt a c = true.
Proof.
  intros Hab Hcb. destruct (py_lt a c) eqn:Hac; [reflexivity|].
  rewrite (py_ge_trans a c b Hac Hcb) in Hab. discriminate.
Qed.

Lemma py_lt_ge_ge (a b c : K) :
  py_lt a b = true -> py_lt c b = false -> py_lt c a = false.
Proof.
  intros Hab Hcb. destruct (py_lt c a) eqn:Hca; [|reflexivity].
  rewrite (py_lt_trans c a b Hca Hab) in Hcb. discriminate.
Qed.

(** The scan, with the items already passed split into those before
    the current best ([pre], all of a strictly greater key) and those
    after it ([mid], none of a smaller key). *)
Lemma min_scan_split (rest : list A) :
  forall (best : A) (pre mid : list A),
    (forall y, y ∈ pre -> py_lt (key best) (key y) = true) ->
    (forall y, y ∈ mid -> py_lt (key y) (key best) = false) ->
    exists l1 l2,
      pre ++ best :: mid ++ rest = l1 ++ min_scan key best rest :: l2
      /\ (forall y, y ∈ l1 ->
            py_lt (key (min_scan key best rest)) (key y) = true)
      /\ (forall y, y ∈ l2 ->
            py_lt (key y) (key (min_scan key best rest)) = false).
Proof.
  induction rest as [|x rest IH]; intros best pre mid Hpre Hmid; simpl.
  - exists pre, mid. rewrite app_nil_r. auto.
  - destruct (py_lt (key x) (key best)) eqn:Hx.
    + destruct (IH x (pre ++ best :: mid) []) as (l1 & l2 & Heq & H1 & H2).
      * intros y Hy. apply elem_of_app in Hy as [Hy|Hy].
        -- eapply py_lt_trans; [exact Hx | auto].
        -- apply elem_of_cons in Hy as [->|Hy]; [exact Hx|].
           eapply py_lt_ge_lt; [exact Hx | auto].
      * intros y Hy. apply elem_of_nil in Hy. contradiction.
      * exists l1, l2. split; [|auto].
        rewrite <- Heq. simpl. rewrite <- app_assoc. reflexivity.
    + destruct (IH best pre (mid ++ [x])) as (l1 & l2 & Heq & H1 & H2).
      * exact Hpre.
      * intros y Hy. apply elem_of_app in Hy as [Hy|Hy]; [auto|].
        apply list_elem_of_singleton in Hy as ->. exact Hx.
      * exists l1, l2. split; [|auto].
        rewrite <- Heq. rewrite <- app_assoc. reflexivity.
Qed.

Lemma py_min_first (l : list A) :
  l <> [] ->
  exists r l1 l2,
    py_min key l = Ok r /\ l = l1 ++ r :: l2
    /\ (forall y, y ∈ l1 -> py_lt (key r) (key y) = true)
    /\ (forall y, y ∈ l2 -> py_lt (key y) (key r) = false).
Proof.
  destruct l as [|x rest]; [congruence|]. intros _.
  destruct (min_scan_split rest x [] []) as (l1 & l2 & Heq & H1 & H2).
  - intros y Hy. apply elem_of_nil in Hy. contradiction.
  - intros y Hy. apply elem_of_nil in Hy. contradiction.
  - exists (min_scan key x rest), l1, l2. simpl in *. auto.
Qed.

Lemma py_min_least (l : list A) (r : A) :
  py_min key l = Ok r ->
  r ∈ l /\ forall y, y ∈ l -> py_lt (key y) (key r) = false.
Proof.
  intros Hr. destruct (py_min_first l) as (r' & l1 & l2 & Hr' & -> & H1 & H2).
  - destruct l; [discriminate | congruence].
  - assert (r' = r) as -> by congruence. split.
    + apply elem_of_app. right. apply elem_of_cons. auto.
    + intros y Hy. apply elem_of_app in Hy as [Hy|Hy].
      * apply H1 in Hy.
        destruct (py_lt (key y) (key r)) eqn:Hyr; [|reflexivity].
        pose proof (py_lt_trans _ _ _ Hy Hyr) as Hrr.
        rewrite py_lt_irrefl in Hrr. discriminate.
      * apply elem_of_cons in Hy as [->|Hy]; [apply py_lt_irrefl | auto].
Qed.
End PyMinFacts.

(** On non-empty capability lists both searches return. *)

Lemma nearest_supported_color_temp_returns
    (self : FritzboxLight) (requested : Z) :
  _supported_color_temps self <> [] ->
  exists r, _nearest_supported_color_temp self requested = Ok r.
Proof.
  intros Hne. unfold _nearest_supported_color_temp.
  destruct (_supported_color_temps self) as [|t ts]; [congruence|].
  simpl. eauto.
Qed.

Lemma nearest_supported_color_returns
    (self : FritzboxLight) (requested : Q * Q) :
  _supported_colors self <> [] ->
  exists r, _nearest_supported_color self requested = Ok r.
Proof.
  intros Hne. unfold _nearest_supported_color.
  destruct (py_min_first (hue_key requested) (map fst (_supported_colors self)))
    as (h & l1 & l2 & Hh & Heq & _).
  { destruct (_supported_colors self); [congruence | discriminate]. }
  rewrite Hh. simpl.
  assert (Hin : h ∈ map fst (_supported_colors self)).
  { rewrite Heq. apply elem_of_app. right. apply elem_of_cons. auto. }
  apply list_elem_of_In, in_map_iff in Hin as ([h' s] & Hh' & Hc).
  simpl in Hh'. subst h'.
  destruct (py_min_first (sat_key requested)
              (map snd (filter (fun color : HsColor => fst color = h)
                               (_supported_colors self))))
    as (s' & _ & _ & Hs & _).
  { intros Hnil.
    assert (Hmem : s ∈ map snd (filter (fun color : HsColor => fst color = h)
                                       (_supported_colors self))).
    { apply list_elem_of_In, in_map_iff. exists (h, s). split; [reflexivity|].
      apply list_elem_of_In, list_elem_of_filter. split; [reflexivity|].
      apply list_elem_of_In, Hc. }
    rewrite Hnil in Hmem. apply elem_of_nil in Hmem. contradiction. }
  rewrite Hs. simpl. eauto.
Qed.

(** ** The nearest supported colour temperature *)

(** C3.  On a non-empty list of supported temperatures,
    [_nearest_supported_color_temp] returns a member of the list whose
    absolute Kelvin difference to the request is least, and it is the
    first such member: every temperature listed before it is strictly
    farther from the request. *)
Theorem nearest_supported_color_temp_first_least
    (self : FritzboxLight) (requested : Z) :
  _supported_color_temps self <> [] ->
  exists r l1 l2,
    _nearest_supported_color_temp self requested = Ok r
    /\ r ∈ _supported_color_temps self
    /\ (forall y, y ∈ _supported_color_temps self ->
          Z.abs (r - requested) <= Z.abs (y - requested))
    /\ _supported_color_temps self = l1 ++ r :: l2
    /\ (forall y, y ∈ l1 -> Z.abs (r - requested) < Z.abs (y - requested)).
Proof.
  intros Hne. unfold _nearest_supported_color_temp.
  destruct (py_min_first (fun x => Z.abs (x - requested))
              (_supported_color_temps self) Hne)
    as (r & l1 & l2 & Hr & Heq & Hbefore & Hafter).
  destruct (py_min_least _ _ _ Hr) as [Hin Hleast].
  exists r, l1, l2. repeat split; try assumption.
  - intros y Hy. apply Hleast in Hy. apply Z.ltb_ge in Hy. exact Hy.
  - intros y Hy. apply Hbefore in Hy. apply Z.ltb_lt in Hy. exact Hy.
Qed.

Lemma nearest_supported_color_temp_first_least_witness :
  exists r l1 l2,
    _nearest_supported_color_temp (light_of [] [3000; 2700; 4000]) 2850 = Ok r
    /\ r ∈ [3000; 2700; 4000]
    /\ (forall y, y ∈ [3000; 2700; 4000] ->
          Z.abs (r - 2850) <= Z.abs (y - 2850))
    /\ [3000; 2700; 4000] = l1 ++ r :: l2
    /\ (forall y, y ∈ l1 -> Z.abs (r - 2850) < Z.abs (y - 2850)).
Proof.
  apply (nearest_supported_color_temp_first_least
           (light_of [] [3000; 2700; 4000]) 2850).
  simpl. discriminate.
Defined.

(** ** The nearest supported colour *)

Lemma map_fst_split (colors : list HsColor) (l1 l2 : list Z) (h : Z) :
  map fst colors = l1 ++ h :: l2 ->
  exists p1 c p2,
    colors = p1 ++ c :: p2 /\ map fst p1 = l1 /\ fst c = h.
Proof.
  intros Heq. apply map_eq_app in Heq as (p1 & q & -> & Hp1 & Hq).
  apply map_eq_cons in Hq as (c & p2 & -> & Hc & _).
  exists p1, c, p2. auto.
Qed.

Lemma elem_of_map_fst (colors : list HsColor) (c : HsColor) :
  c ∈ colors -> fst c ∈ map fst colors.
Proof. intros Hc. apply list_elem_of_In, in_map, list_elem_of_In, Hc. Qed.

Lemma elem_of_sat_values (colors : list HsColor) (h s : Z) :
  s ∈ map snd (filter (fun color : HsColor => fst color = h) colors)
  <-> (h, s) ∈ colors.
Proof.
  rewrite list_elem_of_In, in_map_iff. split.
  - intros ([h' s'] & <- & Hin).
    apply list_elem_of_In, list_elem_of_filter in Hin as [Hh Hin].
    simpl in *. subst. exact Hin.
  - intros Hin. exists (h, s). split; [reflexivity|].
    apply list_elem_of_In, list_elem_of_filter. auto.
Qed.

(** C1, as amended.  On a non-empty list of supported colours,
    [_nearest_supported_color] returns a pair of the list; no supported
    pair has a smaller absolute hue distance to the requested hue; and
    no supported pair with the same hue as the returned pair has a
    smaller absolute saturation distance to the requested saturation.
    When several hues are equally near, the hue of the returned pair is
    the one listed first. *)
Theorem nearest_supported_color_two_stage
    (self : FritzboxLight) (requested : Q * Q) :
  _supported_colors self <> [] ->
  exists r,
    _nearest_supported_color self requested = Ok r
    /\ r ∈ _supported_colors self
    /\ (forall c, c ∈ _supported_colors self ->
          (hue_key requested (fst r) <= hue_key requested (fst c))%Q)
    /\ (forall c, c ∈ _supported_colors self -> fst c = fst r ->
          (sat_key requested (snd r) <= sat_key requested (snd c))%Q)
    /\ (exists p1 c0 p2,
          _supported_colors self = p1 ++ c0 :: p2 /\ fst c0 = fst r
          /\ forall c, c ∈ p1 ->
               (hue_key requested (fst r) < hue_key requested (fst c))%Q).
Proof.
  intros Hne. unfold _nearest_supported_color.
  set (colors := _supported_colors self) in *.
  destruct (py_min_first (hue_key requested) (map fst colors))
    as (h & l1 & l2 & Hh & Heq & Hbefore & _).
  { destruct colors; [congruence | discriminate]. }
  destruct (py_min_least _ _ _ Hh) as [_ Hhleast].
  destruct (map_fst_split _ _ _ _ Heq) as (p1 & c0 & p2 & Hcolors & Hp1 & Hc0).
  rewrite Hh. simpl.
  set (sats := map snd (filter (fun color : HsColor => fst color = h) colors)).
  assert (Hsats : snd c0 ∈ sats).
  { apply elem_of_sat_values. rewrite <- Hc0, <- surjective_pairing.
    rewrite Hcolors. apply elem_of_app. right. apply elem_of_cons. auto. }
  destruct (py_min_first (sat_key requested) sats)
    as (s & _ & _ & Hs & _).
  { intros Hnil. rewrite Hnil in Hsats. apply elem_of_nil in Hsats.
    contradiction. }
  destruct (py_min_least _ _ _ Hs) as [Hsin Hsleast].
  rewrite Hs. simpl. exists (h, s). simpl. repeat split.
  - apply elem_of_sat_values. exact Hsin.
  - intros c Hc. apply Qltb_ge. apply Hhleast, elem_of_map_fst, Hc.
  - intros [ch cs] Hc Hch. simpl in *. subst ch.
    apply Qltb_ge. apply Hsleast, elem_of_sat_values, Hc.
  - exists p1, c0, p2. repeat split; try assumption.
    intros c Hc. apply Qltb_lt. apply Hbefore.
    rewrite <- Hp1. apply elem_of_map_fst, Hc.
Qed.

Lemma nearest_supported_color_two_stage_witness :
  exists r,
    _nearest_supported_color (light_of [(10,50); (10,80); (40,90)] [])
                             (12#1, 60#1)%Q = Ok r
    /\ r ∈ [(10,50); (10,80); (40,90)]
    /\ (forall c, c ∈ [(10,50); (10,80); (40,90)] ->
          (hue_key (12#1, 60#1) (fst r) <= hue_key (12#1, 60#1) (fst c))%Q)
    /\ (forall c, c ∈ [(10,50); (10,80); (40,90)] -> fst c = fst r ->
          (sat_key (12#1, 60#1) (snd r) <= sat_key (12#1, 60#1) (snd c))%Q)
    /\ (exists p1 c0 p2,
          [(10,50); (10,80); (40,90)] = p1 ++ c0 :: p2 /\ fst c0 = fst r
          /\ forall c, c ∈ p1 ->
               (hue_key (12#1, 60#1) (fst r) < hue_key (12#1, 60#1) (fst c))%Q).
Proof.
  apply (nearest_supported_color_two_stage
           (light_of [(10,50); (10,80); (40,90)] []) (12#1, 60#1)%Q).
  simpl. discriminate.
Defined.

(** C1, as stated, fails: with supported colours [(8,0); (12,60)] and the
    request (10, 60) both hues are at distance 2; the search keeps the
    first hue, 8, and returns (8, 0), although (12, 60) ties on the hue
    distance and matches the requested saturation exactly. *)
Lemma nearest_supported_color_hue_tie_counterexample :
  let self := light_of [(8,0); (12,60)] [] in
  let requested := (10#1, 60#1)%Q in
  _supported_colors self <> []
  /\ ~ exists r,
         _nearest_supported_color self requested = Ok r
         /\ r ∈ _supported_colors self
         /\ (forall c, c ∈ _supported_colors self ->
               (hue_key requested (fst r) <= hue_key requested (fst c))%Q)
         /\ (forall c, c ∈ _supported_colors self ->
               (hue_key requested (fst c) == hue_key requested (fst r))%Q ->
               (sat_key requested (snd r) <= sat_key requested (snd c))%Q).
Proof.
  intros self requested. split; [discriminate|].
  intros (r & Hr & _ & _ & Htie).
  assert (r = (8, 0)) as -> by (vm_compute in Hr; congruence).
  specialize (Htie (12, 60)).
  assert (Hle : (sat_key requested 0 <= sat_key requested 60)%Q).
  { apply Htie.
    - apply elem_of_cons. right. apply elem_of_cons. left. reflexivity.
    - reflexivity. }
  vm_compute in Hle. apply Hle. reflexivity.
Qed.

(** ** The read accessors *)

(** C9.  [is_on] is false whenever the presence flag is false, whatever
    the reported state; for a present device it is the on/off flag. *)
Theorem is_on_presence (device : FritzhomeDevice.t) :
  (FritzhomeDevice.present device = false -> is_on device = false)
  /\ (FritzhomeDevice.present device = true ->
      is_on device = FritzhomeDevice.state device).
Proof.
  unfold is_on. split; intros ->; reflexivity.
Qed.

Lemma is_on_presence_witness :
  is_on (bulb false true 1 5) = false
  /\ is_on (bulb true true 1 5) = FritzhomeDevice.state (bulb true true 1 5).
Proof.
  split.
  - apply (proj1 (is_on_presence (bulb false true 1 5))). reflexivity.
  - apply (proj2 (is_on_presence (bulb true true 1 5))). reflexivity.
Defined.

(** C10, as amended.  [brightness], [hs_color] and [color_temp] do not
    read the presence flag.  For a snapshot whose presence flag is false,
    [is_on] is false, yet [brightness] is the level field and [hs_color]
    is the pair of the hue and saturation fields whenever both are set.
    [color_temp] hands a Kelvin field that is set to the conversion and
    returns what the conversion returns: with the reciprocal conversion,
    [1_000_000 / kelvin] rounded down for a field other than 0, and
    [ZeroDivisionError] for a field of 0.  Each accessor returns the same
    for the snapshot with the flag set. *)
Theorem accessors_ignore_presence
    (kelvin_to_mired : Z -> result Z) (device : FritzhomeDevice.t) :
  FritzhomeDevice.present device = false ->
  is_on device = false
  /\ brightness device = FritzhomeDevice.level device
  /\ (forall h s,
        FritzhomeDevice.hue device = Some h ->
        FritzhomeDevice.saturation device = Some s ->
        hs_color device = Some (h, s))
  /\ (forall kelvin,
        FritzhomeDevice.color_temp device = Some kelvin ->
        color_temp kelvin_to_mired device
        = (mired ← kelvin_to_mired kelvin; Ok (Some mired)))
  /\ (forall kelvin,
        FritzhomeDevice.color_temp device = Some kelvin ->
        kelvin <> 0 ->
        color_temp Color.color_temperature_kelvin_to_mired device
        = Ok (Some (1000000 / kelvin)))
  /\ (FritzhomeDevice.color_temp device = Some 0 ->
      color_temp Color.color_temperature_kelvin_to_mired device
      = Raise ZeroDivisionError)
  /\ brightness (set_present true device) = brightness device
  /\ hs_color (set_present true device) = hs_color device
  /\ color_temp kelvin_to_mired (set_present true device)
     = color_temp kelvin_to_mired device.
Proof.
  intros Habsent. repeat split.
  - unfold is_on. rewrite Habsent. reflexivity.
  - intros h s Hh Hs. unfold hs_color. rewrite Hh, Hs. reflexivity.
  - intros kelvin Hk. unfold color_temp. rewrite Hk. reflexivity.
  - intros kelvin Hk Hnz.
    unfold color_temp, Color.color_temperature_kelvin_to_mired. rewrite Hk.
    destruct (Z.eqb_spec kelvin 0); [contradiction | reflexivity].
  - intros Hk. unfold color_temp. rewrite Hk. reflexivity.
Qed.

Lemma accessors_ignore_presence_witness :
  is_on (bulb false true 1 5) = false
  /\ brightness (bulb false true 1 5) = Some 128
  /\ hs_color (bulb false true 1 5) = Some (35, 140)
  /\ color_temp Color.color_temperature_kelvin_to_mired (bulb false true 1 5)
     = Ok (Some (1000000 / 2700))
  /\ color_temp Color.color_temperature_kelvin_to_mired (bulb_at false (Some 0))
     = Raise ZeroDivisionError.
Proof.
  destruct (accessors_ignore_presence
              Color.color_temperature_kelvin_to_mired (bulb false true 1 5))
    as (Hon & Hlevel & Hhs & _ & Hct & _); [reflexivity|].
  destruct (accessors_ignore_presence
              Color.color_temperature_kelvin_to_mired (bulb_at false (Some 0)))
    as (_ & _ & _ & _ & _ & Hzero & _); [reflexivity|].
  split; [exact Hon|]. split; [exact Hlevel|]. split; [|split].
  - apply Hhs; reflexivity.
  - apply (Hct 2700); [reflexivity | lia].
  - apply Hzero. reflexivity.
Defined.

(** C10, as stated, fails: an absent device whose Kelvin field is set,
    to 0, makes [color_temp] raise instead of returning a value. *)
Lemma color_temp_zero_kelvin_counterexample :
  let device := bulb_at false (Some 0) in
  FritzhomeDevice.present device = false
  /\ FritzhomeDevice.color_temp device = Some 0
  /\ color_temp Color.color_temperature_kelvin_to_mired device
     = Raise ZeroDivisionError
  /\ ~ exists value,
         color_temp Color.color_temperature_kelvin_to_mired device = Ok value.
Proof.
  intros device. repeat split. intros [value Hvalue]. discriminate.
Qed.

(** ** The supported colour modes *)

Lemma entity_preserved (mired_to_kelvin : Z -> result Z)
    (evs : list Event) (sys : System) :
  entity (fold_left (step mired_to_kelvin) evs sys) = entity sys.
Proof.
  revert sys. induction evs as [|ev evs IH]; intros sys; simpl.
  - reflexivity.
  - rewrite IH. destruct ev; reflexivity.
Qed.

Lemma reachable_entity (mired_to_kelvin : Z -> result Z)
    (device : FritzhomeDevice.t) (sys : System) :
  reachable mired_to_kelvin device sys -> entity sys = init device.
Proof.
  intros [evs ->]. rewrite entity_preserved. reflexivity.
Qed.

Lemma reachable_created (mired_to_kelvin : Z -> result Z)
    (device : FritzhomeDevice.t) :
  reachable mired_to_kelvin device (created device).
Proof. exists []. reflexivity. Qed.

Lemma reachable_step (mired_to_kelvin : Z -> result Z)
    (device : FritzhomeDevice.t) (sys : System) (ev : Event) :
  reachable mired_to_kelvin device sys ->
  reachable mired_to_kelvin device (step mired_to_kelvin sys ev).
Proof.
  intros [evs ->]. exists (evs ++ [ev]). rewrite fold_left_app. reflexivity.
Qed.

(** C7.  The set of supported colour modes is [{"color_temp"}] for the
    device mode code 1, [{"hs"}] for 4, [{"hs", "color_temp"}] for 5 and
    [{"onoff"}] for every other code, where the code is the one the
    device reported at construction; it is the same set in every state
    reached afterwards, whatever the coordinator and the commands do. *)
Theorem supported_color_modes_fixed (mired_to_kelvin : Z -> result Z)
    (device : FritzhomeDevice.t) (sys : System) :
  reachable mired_to_kelvin device sys ->
  let code := FritzhomeDevice.supported_color_mode device in
  (code = 1 -> supported_color_modes (entity sys) = {[ "color_temp" ]})
  /\ (code = 4 -> supported_color_modes (entity sys) = {[ "hs" ]})
  /\ (code = 5 ->
      supported_color_modes (entity sys) = {[ "hs"; "color_temp" ]})
  /\ (code <> 1 -> code <> 4 -> code <> 5 ->
      supported_color_modes (entity sys) = {[ "onoff" ]}).
Proof.
  intros Hreach code. rewrite (reachable_entity _ _ _ Hreach).
  unfold supported_color_modes, init. simpl. fold code.
  repeat split.
  - intros ->. reflexivity.
  - intros ->. reflexivity.
  - intros ->. reflexivity.
  - intros H1 H4 H5.
    destruct (Z.eqb_spec code 1); [contradiction|].
    destruct (Z.eqb_spec code 4); [contradiction|].
    destruct (Z.eqb_spec code 5); [contradiction|]. reflexivity.
Qed.

Lemma supported_color_modes_fixed_witness :
  let sys :=
    step Color.color_temperature_mired_to_kelvin
      (step Color.color_temperature_mired_to_kelvin (created (bulb true true 1 5))
            (CoordinatorUpdate (bulb true false 4 1)))
      (TurnOff always_ok) in
  supported_color_modes (entity sys) = {[ "hs"; "color_temp" ]}.
Proof.
  intros sys.
  apply (supported_color_modes_fixed Color.color_temperature_mired_to_kelvin
           (bulb true true 1 5) sys).
  - apply reachable_step, reachable_step, reachable_created.
  - reflexivity.
Defined.

Lemma init_supports_color_temp (device : FritzhomeDevice.t) :
  "color_temp" ∈ supported_color_modes (init device)
  <-> FritzhomeDevice.supported_color_mode device = 1
      \/ FritzhomeDevice.supported_color_mode device = 5.
Proof.
  unfold supported_color_modes, init,
    COLOR_MODE_COLOR_TEMP, COLOR_MODE_HS, COLOR_MODE_ONOFF. simpl.
  destruct (Z.eqb_spec (FritzhomeDevice.supported_color_mode device) 1)
    as [E1|N1]; [set_solver|].
  destruct (Z.eqb_spec (FritzhomeDevice.supported_color_mode device) 4)
    as [E4|N4]; [split; [set_solver | lia]|].
  destruct (Z.eqb_spec (FritzhomeDevice.supported_color_mode device) 5)
    as [E5|N5]; [set_solver | split; [set_solver | lia]].
Qed.

Lemma init_supports_hs (device : FritzhomeDevice.t) :
  "hs" ∈ supported_color_modes (init device)
  <-> FritzhomeDevice.supported_color_mode device = 4
      \/ FritzhomeDevice.supported_color_mode device = 5.
Proof.
  unfold supported_color_modes, init,
    COLOR_MODE_COLOR_TEMP, COLOR_MODE_HS, COLOR_MODE_ONOFF. simpl.
  destruct (Z.eqb_spec (FritzhomeDevice.supported_color_mode device) 1)
    as [E1|N1]; [split; [set_solver | lia]|].
  destruct (Z.eqb_spec (FritzhomeDevice.supported_color_mode device) 4)
    as [E4|N4]; [set_solver|].
  destruct (Z.eqb_spec (FritzhomeDevice.supported_color_mode device) 5)
    as [E5|N5]; [set_solver | split; [set_solver | lia]].
Qed.

(** C2, as amended.  In every reachable state the reported [color_mode]
    is decided by the device's current colour-mode code alone:
    ["color_temp"] for code 1, ["hs"] for code 4, undefined otherwise,
    whether or not the device is present.  The reported mode belongs to
    [supported_color_modes] exactly when the mode code reported at
    construction admits it: 1 or 5 for ["color_temp"], 4 or 5 for
    ["hs"]. *)
Theorem color_mode_supported_iff (mired_to_kelvin : Z -> result Z)
    (device : FritzhomeDevice.t) (sys : System) :
  reachable mired_to_kelvin device sys ->
  let supported := FritzhomeDevice.supported_color_mode device in
  let code := FritzhomeDevice.color_mode (data sys) in
  (code = 1 ->
   color_mode (data sys) = Some "color_temp"
   /\ ("color_temp" ∈ supported_color_modes (entity sys)
       <-> supported = 1 \/ supported = 5))
  /\ (code = 4 ->
      color_mode (data sys) = Some "hs"
      /\ ("hs" ∈ supported_color_modes (entity sys)
          <-> supported = 4 \/ supported = 5))
  /\ (code <> 1 -> code <> 4 -> color_mode (data sys) = None)
  /\ color_mode (set_present false (data sys)) = color_mode (data sys).
Proof.
  intros Hreach supported code. rewrite (reachable_entity _ _ _ Hreach).
  unfold color_mode. simpl. fold code. repeat split.
  - rewrite H. reflexivity.
  - apply init_supports_color_temp.
  - apply init_supports_color_temp.
  - rewrite H. reflexivity.
  - apply init_supports_hs.
  - apply init_supports_hs.
  - intros H1 H4.
    destruct (Z.eqb_spec code 1); [contradiction|].
    destruct (Z.eqb_spec code 4); [contradiction|]. reflexivity.
Qed.

Lemma color_mode_supported_iff_witness :
  color_mode (data (created (bulb true true 1 5))) = Some "color_temp"
  /\ ("color_temp" ∈ supported_color_modes (entity (created (bulb true true 1 5)))
      <-> 5 = 1 \/ 5 = 5).
Proof.
  apply (color_mode_supported_iff Color.color_temperature_mired_to_kelvin
           (bulb true true 1 5) (created (bulb true true 1 5))).
  - apply reachable_created.
  - reflexivity.
Defined.

(** C2, as stated, fails: a present device whose supported-mode code is 1
    and whose current colour-mode code is 4 is reported in mode ["hs"],
    which is not in its supported set [{"color_temp"}]. *)
Lemma color_mode_outside_supported_counterexample :
  let device := bulb true true 4 1 in
  let sys := created device in
  reachable Color.color_temperature_mired_to_kelvin device sys
  /\ FritzhomeDevice.present (data sys) = true
  /\ color_mode (data sys) = Some "hs"
  /\ supported_color_modes (entity sys) = {[ "color_temp" ]}
  /\ "hs" ∉ supported_color_modes (entity sys).
Proof.
  intros device sys. split; [apply reachable_created|].
  split; [reflexivity|]. split; [reflexivity|]. split; [reflexivity|].
  intros Hin. apply (init_supports_hs device) in Hin. simpl in Hin. lia.
Qed.

(** ** The command methods *)

Lemma issued_app {A : Type} (m : Async A) (env : Env) (log l : list Call) :
  fst (m env log) = log ++ l -> issued m env log = l.
Proof. intros H. unfold issued. rewrite H. apply drop_app_length. Qed.

(** A device command followed by the refresh: the refresh is reached only
    when the command completed. *)
Lemma await_then_refresh_run (c : Call) (env : Env) (log : list Call) :
  (await c ≫= fun _ => await AsyncRefresh) env log
  = match env log c with
    | Some e => (log ++ [c], Raise e)
    | None =>
        (log ++ [c; AsyncRefresh],
         match env (log ++ [c]) AsyncRefresh with
         | None => Ok tt
         | Some e => Raise e
         end)
    end.
Proof.
  unfold mbind, Async_bind, await. destruct (env log c); [reflexivity|].
  rewrite <- app_assoc. reflexivity.
Qed.

Lemma await_then_refresh_shape {A : Type} (m : Async A) (c : Call)
    (env : Env) (log : list Call) (r : result A) :
  m env log
  = match env log c with
    | Some e => (log ++ [c], Raise e)
    | None => (log ++ [c; AsyncRefresh], r)
    end ->
  (exists e, env log c = Some e
             /\ issued m env log = [c] /\ outcome m env log = Raise e)
  \/ (env log c = None
      /\ issued m env log = [c; AsyncRefresh] /\ outcome m env log = r).
Proof.
  intros Hrun. unfold outcome. destruct (env log c) as [e|] eqn:He.
  - left. exists e. rewrite (issued_app m env log [c]); rewrite Hrun; auto.
  - right. rewrite (issued_app m env log [c; AsyncRefresh]); rewrite Hrun; auto.
Qed.

Section Commands.
Variable mired_to_kelvin : Z -> result Z.

(** Which device command [async_turn_on] selects. *)
Lemma async_turn_on_hs (self : FritzboxLight) (kwargs : Kwargs)
    (requested : Q * Q) :
  ATTR_HS_COLOR kwargs = Some requested ->
  _supported_colors self <> [] ->
  exists r,
    _nearest_supported_color self requested = Ok r
    /\ forall env log,
         async_turn_on mired_to_kelvin self kwargs env log
         = (await (SetColor r) ≫= fun _ => await AsyncRefresh) env log.
Proof.
  intros Hhs Hne.
  destruct (nearest_supported_color_returns self requested Hne) as (r & Hr).
  exists r. split; [exact Hr|]. intros env log.
  unfold async_turn_on. rewrite Hhs.
  destruct (_supported_colors self); [congruence|]. rewrite Hr. reflexivity.
Qed.

Lemma async_turn_on_color_temp (self : FritzboxLight) (kwargs : Kwargs)
    (mireds kelvin : Z) :
  ATTR_HS_COLOR kwargs = None \/ _supported_colors self = [] ->
  ATTR_COLOR_TEMP kwargs = Some mireds ->
  _supported_color_temps self <> [] ->
  mired_to_kelvin mireds = Ok kelvin ->
  exists t,
    _nearest_supported_color_temp self kelvin = Ok t
    /\ forall env log,
         async_turn_on mired_to_kelvin self kwargs env log
         = (await (SetColorTemp t) ≫= fun _ => await AsyncRefresh) env log.
Proof.
  intros Hhs Hct Hne Hk.
  destruct (nearest_supported_color_temp_returns self kelvin Hne) as (t & Ht).
  exists t. split; [exact Ht|]. intros env log.
  unfold async_turn_on. rewrite Hct.
  destruct (_supported_color_temps self) as [|t0 ts] eqn:Hts; [congruence|].
  rewrite Hk.
  assert (Hrun :
    (kelvin0 ← pure (Ok kelvin);
     color_temp ← pure (_nearest_supported_color_temp self kelvin0);
     await (SetColorTemp color_temp)) = await (SetColorTemp t)).
  { unfold mbind, Async_bind, pure. rewrite Ht. reflexivity. }
  destruct Hhs as [Hhs|Hnil].
  - rewrite Hhs, Hrun. reflexivity.
  - rewrite Hnil, Hrun. destruct (ATTR_HS_COLOR kwargs); reflexivity.
Qed.

Lemma async_turn_on_plain (self : FritzboxLight) (kwargs : Kwargs) :
  ATTR_HS_COLOR kwargs = None \/ _supported_colors self = [] ->
  ATTR_COLOR_TEMP kwargs = None \/ _supported_color_temps self = [] ->
  forall env log,
    async_turn_on mired_to_kelvin self kwargs env log
    = (await SetStateOn ≫= fun _ => await AsyncRefresh) env log.
Proof.
  intros Hhs Hct env log. unfold async_turn_on.
  assert (Hplain :
    match ATTR_COLOR_TEMP kwargs, _supported_color_temps self with
    | Some mireds, _ :: _ =>
        kelvin ← pure (mired_to_kelvin mireds);
        color_temp ← pure (_nearest_supported_color_temp self kelvin);
        await (SetColorTemp color_temp)
    | _, _ => await SetStateOn
    end = await SetStateOn).
  { destruct Hct as [Hct|Hnil].
    - rewrite Hct. reflexivity.
    - rewrite Hnil. destruct (ATTR_COLOR_TEMP kwargs); reflexivity. }
  destruct Hhs as [Hhs|Hnil].
  - rewrite Hhs, Hplain. reflexivity.
  - rewrite Hnil, Hplain. destruct (ATTR_HS_COLOR kwargs); reflexivity.
Qed.

(** A conversion that raises ends the call before any collaborator is
    called. *)
Lemma async_turn_on_conversion_raises (self : FritzboxLight)
    (kwargs : Kwargs) (mireds : Z) (e : exn) :
  ATTR_HS_COLOR kwargs = None \/ _supported_colors self = [] ->
  ATTR_COLOR_TEMP kwargs = Some mireds ->
  _supported_color_temps self <> [] ->
  mired_to_kelvin mireds = Raise e ->
  forall env log,
    async_turn_on mired_to_kelvin self kwargs env log = (log, Raise e).
Proof.
  intros Hhs Hct Hne Hk env log. unfold async_turn_on. rewrite Hct.
  destruct (_supported_color_temps self) as [|t0 ts]; [congruence|].
  rewrite Hk.
  destruct Hhs as [Hhs|Hnil].
  - rewrite Hhs. reflexivity.
  - rewrite Hnil. destruct (ATTR_HS_COLOR kwargs); reflexivity.
Qed.

(** Every run of [async_turn_on] has one of three shapes: it raises
    before any call; its device command raises and nothing follows; or
    its device command completes and the refresh follows. *)
Lemma async_turn_on_shape (self : FritzboxLight) (kwargs : Kwargs)
    (env : Env) (log : list Call) :
  let m := async_turn_on mired_to_kelvin self kwargs in
  (issued m env log = [] /\ exists e, outcome m env log = Raise e)
  \/ exists c,
       is_device_command c = true
       /\ ((exists e, env log c = Some e
                      /\ issued m env log = [c]
                      /\ outcome m env log = Raise e)
           \/ (env log c = None
               /\ issued m env log = [c; AsyncRefresh]
               /\ outcome m env log
                  = match env (log ++ [c]) AsyncRefresh with
                    | None => Ok tt
                    | Some e => Raise e
                    end)).
Proof.
  intros m.
  assert (Hcmd : forall c,
             is_device_command c = true ->
             (forall env log,
                 m env log
                 = (await c ≫= fun _ => await AsyncRefresh) env log) ->
             exists c,
               is_device_command c = true
               /\ ((exists e, env log c = Some e
                              /\ issued m env log = [c]
                              /\ outcome m env log = Raise e)
                   \/ (env log c = None
                       /\ issued m env log = [c; AsyncRefresh]
                       /\ outcome m env log
                          = match env (log ++ [c]) AsyncRefresh with
                            | None => Ok tt
                            | Some e => Raise e
                            end))).
  { intros c Hc Hrun. exists c. split; [exact Hc|].
    apply await_then_refresh_shape.
    rewrite Hrun, await_then_refresh_run. reflexivity. }
  assert (Hhs : (exists requested,
                    ATTR_HS_COLOR kwargs = Some requested
                    /\ _supported_colors self <> [])
                \/ (ATTR_HS_COLOR kwargs = None
                    \/ _supported_colors self = [])).
  { destruct (ATTR_HS_COLOR kwargs) as [requested|]; [|auto].
    destruct (_supported_colors self); [auto|].
    left. exists requested. split; [reflexivity | discriminate]. }
  destruct Hhs as [(requested & Hreq & Hne)|Hhs].
  { destruct (async_turn_on_hs self kwargs requested Hreq Hne)
      as (r & _ & Hrun).
    right. apply (Hcmd (SetColor r)); [reflexivity | exact Hrun]. }
  assert (Hct : (exists mireds,
                    ATTR_COLOR_TEMP kwargs = Some mireds
                    /\ _supported_color_temps self <> [])
                \/ (ATTR_COLOR_TEMP kwargs = None
                    \/ _supported_color_temps self = [])).
  { destruct (ATTR_COLOR_TEMP kwargs) as [mireds|]; [|auto].
    destruct (_supported_color_temps self); [auto|].
    left. exists mireds. split; [reflexivity | discriminate]. }
  destruct Hct as [(mireds & Hreq & Hne)|Hct].
  - destruct (mired_to_kelvin mireds) as [kelvin|e] eqn:Hk.
    + destruct (async_turn_on_color_temp self kwargs mireds kelvin
                  Hhs Hreq Hne Hk) as (t & _ & Hrun).
      right. apply (Hcmd (SetColorTemp t)); [reflexivity | exact Hrun].
    + left.
      pose proof (async_turn_on_conversion_raises self kwargs mireds e
                    Hhs Hreq Hne Hk env log) as Hrun.
      fold m in Hrun. split.
      * apply issued_app. rewrite Hrun. simpl. rewrite app_nil_r.
        reflexivity.
      * exists e. unfold outcome. rewrite Hrun. reflexivity.
  - right. apply (Hcmd SetStateOn); [reflexivity|].
    apply async_turn_on_plain; assumption.
Qed.

Lemma async_turn_off_shape (self : FritzboxLight)
    (env : Env) (log : list Call) :
  let m := async_turn_off self in
  (exists e, env log SetStateOff = Some e
             /\ issued m env log = [SetStateOff]
             /\ outcome m env log = Raise e)
  \/ (env log SetStateOff = None
      /\ issued m env log = [SetStateOff; AsyncRefresh]
      /\ outcome m env log
         = match env (log ++ [SetStateOff]) AsyncRefresh with
           | None => Ok tt
           | Some e => Raise e
           end).
Proof.
  intros m. apply await_then_refresh_shape.
  unfold m, async_turn_off. rewrite await_then_refresh_run. reflexivity.
Qed.
End Commands.

Lemma device_commands_one (c : Call) :
  is_device_command c = true -> device_commands [c] = [c].
Proof.
  intros Hc. unfold device_commands. rewrite filter_cons_True by exact Hc.
  reflexivity.
Qed.

Lemma device_commands_then_refresh (c : Call) :
  is_device_command c = true -> device_commands [c; AsyncRefresh] = [c].
Proof.
  intros Hc. unfold device_commands. rewrite filter_cons_True by exact Hc.
  rewrite filter_cons_False by discriminate. reflexivity.
Qed.

(** A requested colour temperature of 0 mireds, with the platform's
    conversion: the reciprocal raises and no command is sent. *)
Lemma async_turn_on_zero_mireds (self : FritzboxLight) (kwargs : Kwargs)
    (env : Env) (log : list Call) :
  ATTR_HS_COLOR kwargs = None \/ _supported_colors self = [] ->
  ATTR_COLOR_TEMP kwargs = Some 0 ->
  _supported_color_temps self <> [] ->
  async_turn_on Color.color_temperature_mired_to_kelvin self kwargs env log
  = (log, Raise ZeroDivisionError).
Proof.
  intros Hhs Hct Hne.
  apply (async_turn_on_conversion_raises _ self kwargs 0); auto.
Qed.

(** C5.  In a call of [async_turn_on] or [async_turn_off], when the
    device-control call raises, the method raises the same exception, the
    device call is the only call made (it is not repeated) and the
    coordinator is not asked to refresh; a refresh request is always
    preceded by exactly one device-control call, which completed. *)
Theorem command_failure_propagates (mired_to_kelvin : Z -> result Z)
    (self : FritzboxLight) (kwargs : Kwargs) (env : Env) (log : list Call)
    (m : Async unit) :
  m = async_turn_on mired_to_kelvin self kwargs \/ m = async_turn_off self ->
  (forall pre c post e,
      issued m env log = pre ++ c :: post ->
      is_device_command c = true ->
      env (log ++ pre) c = Some e ->
      outcome m env log = Raise e
      /\ issued m env log = [c]
      /\ AsyncRefresh ∉ issued m env log)
  /\ (forall pre post,
         issued m env log = pre ++ AsyncRefresh :: post ->
         exists c,
           pre = [c] /\ is_device_command c = true /\ env log c = None).
Proof.
  intros Hm.
  assert (Hshape :
    (issued m env log = [] /\ exists e, outcome m env log = Raise e)
    \/ exists c,
         is_device_command c = true
         /\ ((exists e, env log c = Some e
                        /\ issued m env log = [c]
                        /\ outcome m env log = Raise e)
             \/ (env log c = None
                 /\ issued m env log = [c; AsyncRefresh]
                 /\ outcome m env log
                    = match env (log ++ [c]) AsyncRefresh with
                      | None => Ok tt
                      | Some e => Raise e
                      end))).
  { destruct Hm as [-> | ->].
    - apply async_turn_on_shape.
    - right. exists SetStateOff. split; [reflexivity|].
      apply async_turn_off_shape. }
  destruct Hshape as [[Hnil _] | (c0 & Hc0 & [(e0 & He0 & Hiss & Hout) | (He0 & Hiss & Hout)])];
    rewrite Hiss || rewrite Hnil; split.
  - intros pre c post e Heq. destruct pre; discriminate.
  - intros pre post Heq. destruct pre; discriminate.
  - intros pre c post e Heq Hc He.
    destruct pre as [|p pre]; simpl in Heq.
    + injection Heq as <- <-. rewrite app_nil_r in He.
      assert (e = e0) as -> by congruence.
      repeat split; [exact Hout|].
      intros Hin. apply list_elem_of_singleton in Hin. subst c0. discriminate.
    + injection Heq as _ Heq. destruct pre; discriminate.
  - intros pre post Heq.
    destruct pre as [|p pre]; simpl in Heq.
    + injection Heq as -> _. discriminate.
    + injection Heq as _ Heq. destruct pre; discriminate.
  - intros pre c post e Heq Hc He.
    destruct pre as [|p pre]; simpl in Heq.
    + injection Heq as <- _. rewrite app_nil_r in He. congruence.
    + injection Heq as _ Heq. destruct pre as [|p' pre]; simpl in Heq.
      * injection Heq as <- _. discriminate.
      * injection Heq as _ Heq. destruct pre; discriminate.
  - intros pre post Heq.
    destruct pre as [|p pre]; simpl in Heq.
    + injection Heq as -> _. discriminate.
    + injection Heq as -> Heq. destruct pre as [|p' pre]; simpl in Heq.
      * exists p. auto.
      * injection Heq as _ Heq. destruct pre; discriminate.
Qed.

Lemma command_failure_propagates_witness :
  let self := light_of [] [] in
  let kwargs := {| ATTR_HS_COLOR := None; ATTR_COLOR_TEMP := None |} in
  let failing := device_fails (CollaboratorError "unreachable") in
  let off := async_turn_off self in
  let on := async_turn_on Color.color_temperature_mired_to_kelvin self kwargs in
  (outcome off failing [] = Raise (CollaboratorError "unreachable")
   /\ issued off failing [] = [SetStateOff]
   /\ AsyncRefresh ∉ issued off failing [])
  /\ (exists c,
         [SetStateOn] = [c] /\ is_device_command c = true
         /\ always_ok [] c = None).
Proof.
  intros self kwargs failing off on. split.
  - apply (proj1 (command_failure_propagates
                    Color.color_temperature_mired_to_kelvin self kwargs
                    failing [] off (or_intror eq_refl))
             [] SetStateOff [] (CollaboratorError "unreachable"));
      reflexivity.
  - apply (proj2 (command_failure_propagates
                    Color.color_temperature_mired_to_kelvin self kwargs
                    always_ok [] on (or_introl eq_refl))
             [SetStateOn] []).
    reflexivity.
Defined.

(** C6, as amended.  Every call of [async_turn_off] issues the device off
    command first, and when that command completes the refresh request
    follows it and nothing else is issued; a call of [async_turn_on] that
    returns normally issued one device command, which completed, and then
    the refresh request.  In no call of either method is a device command
    issued after the refresh request. *)
Theorem refresh_follows_command (mired_to_kelvin : Z -> result Z)
    (self : FritzboxLight) (kwargs : Kwargs) (env : Env) (log : list Call) :
  let on := async_turn_on mired_to_kelvin self kwargs in
  let off := async_turn_off self in
  (exists rest, issued off env log = SetStateOff :: rest)
  /\ (env log SetStateOff = None ->
      issued off env log = [SetStateOff; AsyncRefresh])
  /\ (outcome on env log = Ok tt ->
      exists c,
        is_device_command c = true /\ env log c = None
        /\ issued on env log = [c; AsyncRefresh])
  /\ (forall m pre post c,
         m = on \/ m = off ->
         issued m env log = pre ++ AsyncRefresh :: post ->
         c ∈ post -> is_device_command c = false).
Proof.
  intros on off.
  pose proof (async_turn_off_shape self env log) as Hoff.
  pose proof (async_turn_on_shape mired_to_kelvin self kwargs env log) as Hon.
  simpl in Hoff, Hon. fold off in Hoff. fold on in Hon.
  split; [|split; [|split]].
  - destruct Hoff as [(e & _ & -> & _) | (_ & -> & _)]; eauto.
  - intros Hok. destruct Hoff as [(e & He & _) | (_ & Hiss & _)];
      [congruence | exact Hiss].
  - intros Hok.
    destruct Hon as [[_ [e He]] | (c & Hc & [(e & _ & _ & He) | (He & Hiss & _)])];
      [congruence | congruence |].
    exists c. auto.
  - intros m pre post c Hm Heq Hin.
    assert (Hpost : post = []); [|rewrite Hpost in Hin;
                                  apply elem_of_nil in Hin; contradiction].
    assert (Hshape : issued m env log = []
                     \/ exists c0, is_device_command c0 = true
                                   /\ (issued m env log = [c0]
                                       \/ issued m env log = [c0; AsyncRefresh])).
    { destruct Hm as [-> | ->].
      - destruct Hon as [[Hnil _] | (c0 & Hc0 & [(e & _ & Hiss & _) | (_ & Hiss & _)])];
          [left; exact Hnil | right; exists c0; auto | right; exists c0; auto].
      - right. exists SetStateOff. split; [reflexivity|].
        destruct Hoff as [(e & _ & Hiss & _) | (_ & Hiss & _)]; auto. }
    destruct Hshape as [Hnil | (c0 & Hc0 & [Hiss | Hiss])];
      rewrite Hnil in Heq || rewrite Hiss in Heq.
    + destruct pre; discriminate.
    + destruct pre as [|p pre]; simpl in Heq.
      * injection Heq as -> _. discriminate.
      * injection Heq as _ Heq. destruct pre; discriminate.
    + destruct pre as [|p pre]; simpl in Heq.
      * injection Heq as -> _. discriminate.
      * injection Heq as _ Heq. destruct pre as [|p' pre]; simpl in Heq.
        -- injection Heq as <-. reflexivity.
        -- injection Heq as _ Heq. destruct pre; discriminate.
Qed.

Lemma refresh_follows_command_witness :
  let self := light_of [] [2700; 3000; 4000; 6500] in
  let kwargs := {| ATTR_HS_COLOR := None; ATTR_COLOR_TEMP := Some 200 |} in
  let on := async_turn_on Color.color_temperature_mired_to_kelvin self kwargs in
  issued (async_turn_off self) always_ok [] = [SetStateOff; AsyncRefresh]
  /\ exists c,
       is_device_command c = true /\ always_ok [] c = None
       /\ issued on always_ok [] = [c; AsyncRefresh].
Proof.
  intros self kwargs on.
  destruct (refresh_follows_command Color.color_temperature_mired_to_kelvin
              self kwargs always_ok []) as (_ & Hoff & Hon & _).
  split.
  - apply Hoff. reflexivity.
  - apply Hon. reflexivity.
Defined.

(** C6, as stated, fails: when the device off command raises,
    [async_turn_off] issues that command and no refresh request. *)
Lemma turn_off_without_refresh_counterexample :
  let off := async_turn_off (light_of [] []) in
  let failing := device_fails (CollaboratorError "unreachable") in
  issued off failing [] = [SetStateOff]
  /\ issued off failing [] <> [SetStateOff; AsyncRefresh]
  /\ AsyncRefresh ∉ issued off failing [].
Proof.
  intros off failing. split; [reflexivity|]. split; [discriminate|].
  intros Hin. apply list_elem_of_singleton in Hin. discriminate.
Qed.

(** ** The mired and Kelvin conversions *)

Lemma kelvin_to_mired_positive (kelvin : Z) :
  0 < kelvin <= 1000000 ->
  exists mired,
    Color.color_temperature_kelvin_to_mired kelvin = Ok mired
    /\ mired = 1000000 / kelvin /\ 0 < mired.
Proof.
  intros [Hpos Hle]. exists (1000000 / kelvin).
  unfold Color.color_temperature_kelvin_to_mired.
  destruct (Z.eqb_spec kelvin 0); [lia|].
  repeat split. apply Z.div_str_pos. lia.
Qed.

(** Above 1,000,000 K the mired value is 0 and the way back divides by
    zero. *)
Lemma roundtrip_above_million (kelvin : Z) :
  1000000 < kelvin -> Color.roundtrip kelvin = Raise ZeroDivisionError.
Proof.
  intros Hgt. unfold Color.roundtrip, Color.color_temperature_kelvin_to_mired.
  destruct (Z.eqb_spec kelvin 0); [lia|].
  rewrite Z.div_small by lia. reflexivity.
Qed.

(** C8, as amended.  For a Kelvin value [k] with [0 < k <= 1_000_000],
    converting to mireds and back returns a Kelvin value [k'] that has
    the same mired value as [k] and is not below [k]; it exceeds [k] by
    less than [k / mired].  So [k] is recovered up to the rounding of
    its mired value, not up to one unit. *)
Theorem roundtrip_same_mired (kelvin : Z) :
  0 < kelvin <= 1000000 ->
  exists mired kelvin',
    Color.color_temperature_kelvin_to_mired kelvin = Ok mired
    /\ Color.roundtrip kelvin = Ok kelvin'
    /\ kelvin <= kelvin'
    /\ (kelvin' - kelvin) * mired < kelvin
    /\ Color.color_temperature_kelvin_to_mired kelvin' = Ok mired.
Proof.
  intros Hk.
  destruct (kelvin_to_mired_positive kelvin Hk) as (mired & Hm & Hdef & Hpos).
  exists mired, (1000000 / mired).
  assert (Hlow : mired * kelvin <= 1000000).
  { subst mired. rewrite Z.mul_comm. apply Z.mul_div_le. lia. }
  assert (Hhigh : 1000000 < (mired + 1) * kelvin).
  { subst mired.
    pose proof (Z.mul_succ_div_gt 1000000 kelvin ltac:(lia)). lia. }
  assert (Hback : mired * (1000000 / mired) <= 1000000).
  { apply Z.mul_div_le. exact Hpos. }
  assert (Hge : kelvin <= 1000000 / mired).
  { apply Z.div_le_lower_bound; lia. }
  split; [exact Hm|]. split; [|split; [exact Hge|split]].
  - unfold Color.roundtrip. rewrite Hm. simpl.
    unfold Color.color_temperature_mired_to_kelvin.
    destruct (Z.eqb_spec mired 0); [lia | reflexivity].
  - nia.
  - unfold Color.color_temperature_kelvin_to_mired.
    destruct (Z.eqb_spec (1000000 / mired) 0); [lia|]. f_equal.
    apply Z.le_antisymm.
    + rewrite Hdef at 2. apply Z.div_le_compat_l; lia.
    + apply Z.div_le_lower_bound; lia.
Qed.

Lemma roundtrip_same_mired_witness :
  exists mired kelvin',
    Color.color_temperature_kelvin_to_mired 6500 = Ok mired
    /\ Color.roundtrip 6500 = Ok kelvin'
    /\ 6500 <= kelvin'
    /\ (kelvin' - 6500) * mired < 6500
    /\ Color.color_temperature_kelvin_to_mired kelvin' = Ok mired.
Proof.
  apply (roundtrip_same_mired 6500). lia.
Defined.

(** C8, as stated, fails: 6500 K is 153 mireds, and 153 mireds is 6535 K,
    which is 35 K off; and 1,000,001 K is 0 mireds, from where the
    conversion back raises. *)
Lemma roundtrip_not_within_one_counterexample :
  0 < 6500
  /\ ~ (exists kelvin',
          Color.roundtrip 6500 = Ok kelvin' /\ Z.abs (kelvin' - 6500) <= 1)
  /\ 0 < 1000001
  /\ ~ (exists kelvin', Color.roundtrip 1000001 = Ok kelvin').
Proof.
  split; [lia|]. split; [|split; [lia|]].
  - intros (k & Hk & Habs). vm_compute in Hk.
    assert (k = 6535) by congruence. lia.
  - intros (k & Hk). vm_compute in Hk. discriminate.
Qed.

(** * Further properties of the code *)

(** ** The searches at their edges *)

Lemma nearest_supported_color_temp_least
    (self : FritzboxLight) (requested r : Z) :
  _nearest_supported_color_temp self requested = Ok r ->
  r ∈ _supported_color_temps self
  /\ forall y, y ∈ _supported_color_temps self ->
       Z.abs (r - requested) <= Z.abs (y - requested).
Proof.
  intros Hr. unfold _nearest_supported_color_temp in Hr.
  destruct (py_min_least _ _ _ Hr) as [Hin Hleast]. split; [exact Hin|].
  intros y Hy. apply Hleast in Hy. apply Z.ltb_ge in Hy. exact Hy.
Qed.

(** The two stages of a colour search that returned. *)
Lemma nearest_supported_color_stages
    (self : FritzboxLight) (requested : Q * Q) (r : HsColor) :
  _nearest_supported_color self requested = Ok r ->
  py_min (hue_key requested) (map fst (_supported_colors self)) = Ok (fst r)
  /\ py_min (sat_key requested)
       (map snd (filter (fun color : HsColor => fst color = fst r)
                        (_supported_colors self))) = Ok (snd r).
Proof.
  unfold _nearest_supported_color. intros Hr.
  destruct (py_min (hue_key requested) (map fst (_supported_colors self)))
    as [h|e]; [|discriminate].
  simpl in Hr.
  destruct (py_min (sat_key requested)
              (map snd (filter (fun color : HsColor => fst color = h)
                               (_supported_colors self))))
    as [s|e] eqn:Hs; [|discriminate].
  simpl in Hr. injection Hr as <-. simpl. auto.
Qed.

Lemma nearest_supported_color_member
    (self : FritzboxLight) (requested : Q * Q) (r : HsColor) :
  _nearest_supported_color self requested = Ok r ->
  r ∈ _supported_colors self.
Proof.
  intros Hr. destruct (nearest_supported_color_stages _ _ _ Hr) as [_ Hs].
  destruct (py_min_least _ _ _ Hs) as [Hin _].
  apply elem_of_sat_values in Hin. rewrite <- surjective_pairing in Hin.
  exact Hin.
Qed.

(** X4.  [min] of an empty sequence: each search raises [ValueError]
    exactly when the list it searches is empty, and raises nothing
    else. *)
Theorem searches_raise_iff_empty (self : FritzboxLight)
    (hs_requested : Q * Q) (temp_requested : Z) (e : exn) :
  (_nearest_supported_color self hs_requested = Raise e
   <-> _supported_colors self = [] /\ e = ValueError)
  /\ (_nearest_supported_color_temp self temp_requested = Raise e
      <-> _supported_color_temps self = [] /\ e = ValueError).
Proof.
  split; split.
  - intros Hraise. destruct (_supported_colors self) as [|c cs] eqn:Hcolors.
    + unfold _nearest_supported_color in Hraise. rewrite Hcolors in Hraise.
      simpl in Hraise. split; congruence.
    + destruct (nearest_supported_color_returns self hs_requested) as [r Hr];
        [rewrite Hcolors; discriminate | congruence].
  - intros [Hnil ->]. unfold _nearest_supported_color. rewrite Hnil.
    reflexivity.
  - intros Hraise. destruct (_supported_color_temps self) as [|t ts] eqn:Htemps.
    + unfold _nearest_supported_color_temp in Hraise.
      rewrite Htemps in Hraise. simpl in Hraise. split; congruence.
    + destruct (nearest_supported_color_temp_returns self temp_requested)
        as [r Hr]; [rewrite Htemps; discriminate | congruence].
  - intros [Hnil ->]. unfold _nearest_supported_color_temp. rewrite Hnil.
    reflexivity.
Qed.

(** X5.  A supported temperature requested exactly is returned, so a
    search started from a result returns that result again. *)
Theorem nearest_supported_color_temp_exact (self : FritzboxLight) :
  (forall requested,
      requested ∈ _supported_color_temps self ->
      _nearest_supported_color_temp self requested = Ok requested)
  /\ (forall requested r,
         _nearest_supported_color_temp self requested = Ok r ->
         _nearest_supported_color_temp self r = Ok r).
Proof.
  assert (Hexact : forall requested,
             requested ∈ _supported_color_temps self ->
             _nearest_supported_color_temp self requested = Ok requested).
  { intros requested Hin.
    destruct (nearest_supported_color_temp_returns self requested) as [r Hr].
    { intros Hnil. rewrite Hnil in Hin. apply elem_of_nil in Hin.
      contradiction. }
    destruct (nearest_supported_color_temp_least _ _ _ Hr) as [_ Hleast].
    specialize (Hleast requested Hin).
    assert (r = requested) as -> by lia. exact Hr. }
  split; [exact Hexact|].
  intros requested r Hr. apply Hexact.
  apply (nearest_supported_color_temp_least _ _ _ Hr).
Qed.

Lemma nearest_supported_color_temp_exact_witness :
  _nearest_supported_color_temp (light_of [] [2700; 3000; 4000; 6500]) 3000
  = Ok 3000
  /\ _nearest_supported_color_temp (light_of [] [2700; 3000; 4000; 6500]) 4000
     = Ok 4000.
Proof.
  split.
  - apply (proj1 (nearest_supported_color_temp_exact
                    (light_of [] [2700; 3000; 4000; 6500])) 3000).
    apply elem_of_cons. right. apply elem_of_cons. left. reflexivity.
  - apply (proj2 (nearest_supported_color_temp_exact
                    (light_of [] [2700; 3000; 4000; 6500])) 5000 4000).
    reflexivity.
Defined.

Lemma Qabs_diff_zero (a b : Z) :
  (Qabs (inject_Z a - inject_Z b) <= Qabs (inject_Z b - inject_Z b))%Q ->
  a = b.
Proof.
  intros Hle.
  assert (Hz : (Qabs (inject_Z b - inject_Z b) == 0)%Q).
  { rewrite Qabs_pos; lra. }
  rewrite Hz in Hle.
  apply Qabs_Qle_condition in Hle as [Hlo Hhi].
  assert (Heq : (inject_Z a == inject_Z b)%Q) by lra.
  unfold Qeq in Heq. simpl in Heq. lia.
Qed.

(** X6.  A supported colour requested exactly is returned, so a search
    started from a result returns that result again. *)
Theorem nearest_supported_color_exact (self : FritzboxLight) :
  (forall h s,
      (h, s) ∈ _supported_colors self ->
      _nearest_supported_color self (inject_Z h, inject_Z s) = Ok (h, s))
  /\ (forall requested r,
         _nearest_supported_color self requested = Ok r ->
         _nearest_supported_color self (inject_Z (fst r), inject_Z (snd r))
         = Ok r).
Proof.
  assert (Hexact : forall h s,
             (h, s) ∈ _supported_colors self ->
             _nearest_supported_color self (inject_Z h, inject_Z s)
             = Ok (h, s)).
  { intros h s Hin.
    destruct (nearest_supported_color_returns self (inject_Z h, inject_Z s))
      as [[h' s'] Hr].
    { intros Hnil. rewrite Hnil in Hin. apply elem_of_nil in Hin.
      contradiction. }
    destruct (nearest_supported_color_stages _ _ _ Hr) as [Hh Hs].
    simpl in Hh, Hs.
    destruct (py_min_least _ _ _ Hh) as [_ Hhleast].
    assert (h' = h) as ->.
    { apply Qabs_diff_zero. apply Qltb_ge.
      apply (Hhleast h). apply (elem_of_map_fst _ (h, s)), Hin. }
    destruct (py_min_least _ _ _ Hs) as [_ Hsleast].
    assert (s' = s) as ->.
    { apply Qabs_diff_zero. apply Qltb_ge.
      apply (Hsleast s). apply elem_of_sat_values, Hin. }
    exact Hr. }
  split; [exact Hexact|].
  intros requested [h s] Hr. simpl. apply Hexact.
  apply (nearest_supported_color_member _ _ _ Hr).
Qed.

Lemma nearest_supported_color_exact_witness :
  _nearest_supported_color (light_of [(10,50); (10,80); (40,90)] [])
                           (inject_Z 10, inject_Z 80) = Ok (10, 80)
  /\ _nearest_supported_color (light_of [(10,50); (10,80); (40,90)] [])
                              (inject_Z (fst (10, 50)), inject_Z (snd (10, 50)))
     = Ok (10, 50).
Proof.
  split.
  - apply (proj1 (nearest_supported_color_exact
                    (light_of [(10,50); (10,80); (40,90)] [])) 10 80).
    apply elem_of_cons. right. apply elem_of_cons. left. reflexivity.
  - apply (proj2 (nearest_supported_color_exact
                    (light_of [(10,50); (10,80); (40,90)] []))
             (12#1, 60#1)%Q (10, 50)).
    reflexivity.
Defined.

(** X7.  The temperature search is monotone: a request that is not lower
    never gets a lower supported temperature, whatever the order of the
    list. *)
Theorem nearest_supported_color_temp_monotone
    (self : FritzboxLight) (low high r_low r_high : Z) :
  low <= high ->
  _nearest_supported_color_temp self low = Ok r_low ->
  _nearest_supported_color_temp self high = Ok r_high ->
  r_low <= r_high.
Proof.
  intros Hle Hlow Hhigh.
  destruct (Z.eq_dec low high) as [->|Hne]; [assert (r_low = r_high) by congruence; lia|].
  destruct (nearest_supported_color_temp_least _ _ _ Hlow) as [Hin_low Hleast_low].
  destruct (nearest_supported_color_temp_least _ _ _ Hhigh) as [Hin_high Hleast_high].
  specialize (Hleast_low r_high Hin_high).
  specialize (Hleast_high r_low Hin_low).
  lia.
Qed.

Lemma nearest_supported_color_temp_monotone_witness : 3000 <= 4000.
Proof.
  apply (nearest_supported_color_temp_monotone
           (light_of [] [6500; 4000; 3000; 2700]) 3400 5000 3000 4000).
  - lia.
  - reflexivity.
  - reflexivity.
Defined.

(** ** What the commands send and raise *)

(** The device command [async_turn_on] selects, or the exception of the
    conversion when it raises before any call. *)
Lemma async_turn_on_selects (mired_to_kelvin : Z -> result Z)
    (self : FritzboxLight) (kwargs : Kwargs) :
  (exists mireds e,
      ATTR_COLOR_TEMP kwargs = Some mireds
      /\ mired_to_kelvin mireds = Raise e
      /\ forall env log,
           async_turn_on mired_to_kelvin self kwargs env log = (log, Raise e))
  \/ exists c,
       ((exists requested r,
            ATTR_HS_COLOR kwargs = Some requested
            /\ _nearest_supported_color self requested = Ok r
            /\ c = SetColor r)
        \/ (exists mireds kelvin t,
               ATTR_COLOR_TEMP kwargs = Some mireds
               /\ mired_to_kelvin mireds = Ok kelvin
               /\ _nearest_supported_color_temp self kelvin = Ok t
               /\ c = SetColorTemp t)
        \/ c = SetStateOn)
       /\ forall env log,
            async_turn_on mired_to_kelvin self kwargs env log
            = (await c ≫= fun _ => await AsyncRefresh) env log.
Proof.
  assert (Hhs : (exists requested,
                    ATTR_HS_COLOR kwargs = Some requested
                    /\ _supported_colors self <> [])
                \/ (ATTR_HS_COLOR kwargs = None
                    \/ _supported_colors self = [])).
  { destruct (ATTR_HS_COLOR kwargs) as [requested|]; [|auto].
    destruct (_supported_colors self); [auto|].
    left. exists requested. split; [reflexivity | discriminate]. }
  destruct Hhs as [(requested & Hreq & Hne)|Hhs].
  { destruct (async_turn_on_hs mired_to_kelvin self kwargs requested Hreq Hne)
      as (r & Hr & Hrun).
    right. exists (SetColor r). split; [|exact Hrun].
    left. exists requested, r. auto. }
  assert (Hct : (exists mireds,
                    ATTR_COLOR_TEMP kwargs = Some mireds
                    /\ _supported_color_temps self <> [])
                \/ (ATTR_COLOR_TEMP kwargs = None
                    \/ _supported_color_temps self = [])).
  { destruct (ATTR_COLOR_TEMP kwargs) as [mireds|]; [|auto].
    destruct (_supported_color_temps self); [auto|].
    left. exists mireds. split; [reflexivity | discriminate]. }
  destruct Hct as [(mireds & Hreq & Hne)|Hct].
  - destruct (mired_to_kelvin mireds) as [kelvin|e] eqn:Hk.
    + destruct (async_turn_on_color_temp mired_to_kelvin self kwargs
                  mireds kelvin Hhs Hreq Hne Hk) as (t & Ht & Hrun).
      right. exists (SetColorTemp t). split; [|exact Hrun].
      right. left. exists mireds, kelvin, t. auto.
    + left. exists mireds, e. repeat split; [exact Hreq | exact Hk |].
      apply (async_turn_on_conversion_raises mired_to_kelvin self kwargs
               mireds e Hhs Hreq Hne Hk).
  - right. exists SetStateOn. split; [auto|].
    apply async_turn_on_plain; assumption.
Qed.

Lemma issued_await_then_refresh {A : Type} (m : Async A) (c : Call)
    (env : Env) (log : list Call) :
  (forall env log,
      fst (m env log) = fst ((await c ≫= fun _ => await AsyncRefresh) env log)) ->
  issued m env log = [c] \/ issued m env log = [c; AsyncRefresh].
Proof.
  intros Hrun. specialize (Hrun env log).
  rewrite await_then_refresh_run in Hrun.
  destruct (env log c).
  - left. apply issued_app. exact Hrun.
  - right. apply issued_app. exact Hrun.
Qed.

(** X1.  [async_turn_on] only sends what the device lists: a colour it
    sends is one of the supported colours, a colour temperature it sends
    is one of the supported temperatures, and it never sends the off
    command. *)
Theorem async_turn_on_sends_supported (mired_to_kelvin : Z -> result Z)
    (self : FritzboxLight) (kwargs : Kwargs) (env : Env) (log : list Call)
    (c : Call) :
  c ∈ issued (async_turn_on mired_to_kelvin self kwargs) env log ->
  match c with
  | SetColor hs => hs ∈ _supported_colors self
  | SetColorTemp kelvin => kelvin ∈ _supported_color_temps self
  | SetStateOff => False
  | SetStateOn | AsyncRefresh => True
  end.
Proof.
  intros Hin.
  destruct (async_turn_on_selects mired_to_kelvin self kwargs)
    as [(mireds & e & _ & _ & Hrun) | (c0 & Hsel & Hrun)].
  - rewrite (issued_app _ env log []) in Hin.
    + apply elem_of_nil in Hin. contradiction.
    + rewrite Hrun. simpl. rewrite app_nil_r. reflexivity.
  - assert (Hc : c = c0 \/ c = AsyncRefresh).
    { destruct (issued_await_then_refresh
                  (async_turn_on mired_to_kelvin self kwargs) c0 env log)
        as [Hiss|Hiss].
      - intros env' log'. rewrite Hrun. reflexivity.
      - rewrite Hiss in Hin. apply list_elem_of_singleton in Hin. auto.
      - rewrite Hiss in Hin. apply elem_of_cons in Hin as [->|Hin]; [auto|].
        apply list_elem_of_singleton in Hin. auto. }
    destruct Hc as [-> | ->]; [|exact I].
    destruct Hsel as [(requested & r & _ & Hr & ->)
                     |[(mireds & kelvin & t & _ & _ & Ht & ->) | ->]].
    + apply (nearest_supported_color_member _ _ _ Hr).
    + apply (nearest_supported_color_temp_least _ _ _ Ht).
    + exact I.
Qed.

Lemma async_turn_on_sends_supported_witness :
  (10, 50) ∈ [(10,50); (10,80); (40,90)].
Proof.
  apply (async_turn_on_sends_supported Color.color_temperature_mired_to_kelvin
           (light_of [(10,50); (10,80); (40,90)] [2700; 3000; 4000; 6500])
           {| ATTR_HS_COLOR := Some (12#1, 60#1)%Q; ATTR_COLOR_TEMP := None |}
           always_ok [] (SetColor (10, 50))).
  apply elem_of_cons. left. reflexivity.
Defined.

(** X2.  [async_turn_on] returns normally exactly when it issued a
    device command and then the refresh and both completed; a raising
    refresh is raised to the caller, in [async_turn_off] as well. *)
Theorem commands_return_iff_both_complete (mired_to_kelvin : Z -> result Z)
    (self : FritzboxLight) (kwargs : Kwargs) (env : Env) (log : list Call) :
  let on := async_turn_on mired_to_kelvin self kwargs in
  let off := async_turn_off self in
  (outcome on env log = Ok tt
   <-> exists c,
         is_device_command c = true
         /\ issued on env log = [c; AsyncRefresh]
         /\ env log c = None
         /\ env (log ++ [c]) AsyncRefresh = None)
  /\ (outcome off env log = Ok tt
      <-> env log SetStateOff = None
          /\ env (log ++ [SetStateOff]) AsyncRefresh = None)
  /\ (forall c e,
         issued on env log = [c; AsyncRefresh] ->
         env (log ++ [c]) AsyncRefresh = Some e ->
         outcome on env log = Raise e)
  /\ (forall e,
         env log SetStateOff = None ->
         env (log ++ [SetStateOff]) AsyncRefresh = Some e ->
         outcome off env log = Raise e).
Proof.
  intros on off.
  pose proof (async_turn_off_shape self env log) as Hoff.
  pose proof (async_turn_on_shape mired_to_kelvin self kwargs env log) as Hon.
  simpl in Hoff, Hon. fold off in Hoff. fold on in Hon.
  split; [|split; [|split]].
  - split.
    + intros Hok.
      destruct Hon as [[_ [e He]]
                      | (c & Hc & [(e & _ & _ & He) | (He & Hiss & Hout)])];
        [congruence | congruence |].
      exists c. repeat split; try assumption.
      rewrite Hok in Hout.
      destruct (env (log ++ [c]) AsyncRefresh); [discriminate | reflexivity].
    + intros (c & Hc & Hiss & He & Href).
      destruct Hon as [[Hnil _]
                      | (c' & Hc' & [(e & _ & Hiss' & _) | (_ & Hiss' & Hout)])].
      * rewrite Hnil in Hiss. discriminate.
      * rewrite Hiss' in Hiss. discriminate.
      * rewrite Hiss' in Hiss. injection Hiss as ->.
        rewrite Hout, Href. reflexivity.
  - split.
    + intros Hok.
      destruct Hoff as [(e & _ & _ & He) | (He & _ & Hout)]; [congruence|].
      split; [exact He|]. rewrite Hok in Hout.
      destruct (env (log ++ [SetStateOff]) AsyncRefresh);
        [discriminate | reflexivity].
    + intros [He Href].
      destruct Hoff as [(e & He' & _) | (_ & _ & Hout)]; [congruence|].
      rewrite Hout, Href. reflexivity.
  - intros c e Hiss Href.
    destruct Hon as [[Hnil _]
                    | (c' & Hc' & [(e' & _ & Hiss' & _) | (_ & Hiss' & Hout)])].
    + rewrite Hnil in Hiss. discriminate.
    + rewrite Hiss' in Hiss. discriminate.
    + rewrite Hiss' in Hiss. injection Hiss as ->.
      rewrite Hout, Href. reflexivity.
  - intros e He Href.
    destruct Hoff as [(e' & He' & _) | (_ & _ & Hout)]; [congruence|].
    rewrite Hout, Href. reflexivity.
Qed.

(** X3.  An exception raised by [async_turn_on] is the one raised by the
    mired conversion, before any call, or the one raised by a call the
    method made to the device or the coordinator; the searches add
    none. *)
Theorem async_turn_on_exception_origin (mired_to_kelvin : Z -> result Z)
    (self : FritzboxLight) (kwargs : Kwargs) (env : Env) (log : list Call)
    (e : exn) :
  let on := async_turn_on mired_to_kelvin self kwargs in
  outcome on env log = Raise e ->
  (exists mireds,
      ATTR_COLOR_TEMP kwargs = Some mireds
      /\ mired_to_kelvin mireds = Raise e
      /\ issued on env log = [])
  \/ (exists pre c post,
         issued on env log = pre ++ c :: post
         /\ env (log ++ pre) c = Some e).
Proof.
  intros on Hraise.
  destruct (async_turn_on_selects mired_to_kelvin self kwargs)
    as [(mireds & e' & Hreq & Hk & Hrun) | (c & _ & Hrun)].
  - left. exists mireds. unfold outcome, on in Hraise. rewrite Hrun in Hraise.
    simpl in Hraise. injection Hraise as ->. repeat split; try assumption.
    apply issued_app. unfold on. rewrite Hrun. simpl. rewrite app_nil_r.
    reflexivity.
  - right.
    destruct (await_then_refresh_shape on c env log
                (match env (log ++ [c]) AsyncRefresh with
                 | None => Ok tt
                 | Some e => Raise e
                 end)) as [(e' & He' & Hiss & Hout) | (He' & Hiss & Hout)].
    + unfold on. rewrite Hrun, await_then_refresh_run. reflexivity.
    + exists [], c, []. rewrite app_nil_r. split; [exact Hiss|]. congruence.
    + exists [c], AsyncRefresh, []. split; [exact Hiss|].
      rewrite Hraise in Hout.
      destruct (env (log ++ [c]) AsyncRefresh); congruence.
Qed.

Lemma async_turn_on_exception_origin_witness :
  let on := async_turn_on Color.color_temperature_mired_to_kelvin
              (light_of [] [2700; 3000])
              {| ATTR_HS_COLOR := None; ATTR_COLOR_TEMP := Some 0 |} in
  (exists mireds,
      Some 0 = Some mireds
      /\ Color.color_temperature_mired_to_kelvin mireds = Raise ZeroDivisionError
      /\ issued on always_ok [] = [])
  \/ (exists pre c post,
         issued on always_ok [] = pre ++ c :: post
         /\ always_ok ([] ++ pre) c = Some ZeroDivisionError).
Proof.
  intros on.
  apply (async_turn_on_exception_origin Color.color_temperature_mired_to_kelvin
           (light_of [] [2700; 3000])
           {| ATTR_HS_COLOR := None; ATTR_COLOR_TEMP := Some 0 |}
           always_ok [] ZeroDivisionError).
  reflexivity.
Defined.

Lemma commands_return_iff_both_complete_witness :
  let refresh_fails : Env := fun _ c =>
    match c with
    | AsyncRefresh => Some (CollaboratorError "refresh")
    | _ => None
    end in
  outcome (async_turn_off (light_of [] [])) refresh_fails []
  = Raise (CollaboratorError "refresh").
Proof.
  intros refresh_fails.
  apply (proj2 (proj2 (proj2 (commands_return_iff_both_complete
                                Color.color_temperature_mired_to_kelvin
                                (light_of [] [])
                                {| ATTR_HS_COLOR := None;
                                   ATTR_COLOR_TEMP := None |}
                                refresh_fails [])))).
  - reflexivity.
  - reflexivity.
Defined.

(** ** What [__init__] caches *)

(** X8.  The cached colour list is the device's colour groups joined in
    dictionary order: a pair is cached exactly when some group holds it,
    a group's pairs stay together between those of the groups before and
    after it, and nothing is dropped or merged. *)
Theorem init_supported_colors_flatten (device : FritzhomeDevice.t) :
  (forall c,
      c ∈ _supported_colors (init device)
      <-> exists group colors,
            (group, colors) ∈ FritzhomeDevice.get_colors device /\ c ∈ colors)
  /\ (forall before group colors after,
         FritzhomeDevice.get_colors device
         = before ++ (group, colors) :: after ->
         _supported_colors (init device)
         = concat (map snd before) ++ colors ++ concat (map snd after))
  /\ length (_supported_colors (init device))
     = list_sum (map (fun item : string * list HsColor => length (snd item))
                     (FritzhomeDevice.get_colors device)).
Proof.
  simpl. split; [|split].
  - intros c. rewrite list_elem_of_In, in_concat. split.
    + intros (colors & Hcolors & Hc).
      apply in_map_iff in Hcolors as ([group colors'] & Heq & Hin).
      simpl in Heq. subst colors'. exists group, colors.
      split; apply list_elem_of_In; assumption.
    + intros (group & colors & Hin & Hc). exists colors. split.
      * apply in_map_iff. exists (group, colors).
        split; [reflexivity | apply list_elem_of_In, Hin].
      * apply list_elem_of_In, Hc.
  - intros before group colors after ->.
    rewrite map_app, concat_app. reflexivity.
  - induction (FritzhomeDevice.get_colors device) as [|[group colors] rest IH].
    + reflexivity.
    + simpl. rewrite length_app, IH. reflexivity.
Qed.

Lemma init_supported_colors_flatten_witness :
  _supported_colors (init (bulb true true 1 5))
  = concat (map snd [("Rot", [(358, 180); (358, 112)])])
    ++ [(35, 214); (35, 140)]
    ++ concat (map snd ([] : list (string * list HsColor))).
Proof.
  apply (proj1 (proj2 (init_supported_colors_flatten (bulb true true 1 5)))
           [("Rot", [(358, 180); (358, 112)])] "Orange"
           [(35, 214); (35, 140)] []).
  reflexivity.
Defined.

(** X9.  For an entity created from a device whose colour groups are all
    empty (or that has none), a requested hs colour is ignored:
    [async_turn_on] behaves as if only the colour temperature, if any,
    had been requested. *)
Theorem async_turn_on_without_colors (mired_to_kelvin : Z -> result Z)
    (device : FritzhomeDevice.t) (kwargs : Kwargs)
    (env : Env) (log : list Call) :
  (forall group colors,
      (group, colors) ∈ FritzhomeDevice.get_colors device -> colors = []) ->
  async_turn_on mired_to_kelvin (init device) kwargs env log
  = async_turn_on mired_to_kelvin (init device)
      {| ATTR_HS_COLOR := None; ATTR_COLOR_TEMP := ATTR_COLOR_TEMP kwargs |}
      env log.
Proof.
  intros Hempty.
  assert (Hnil : _supported_colors (init device) = []).
  { simpl. induction (FritzhomeDevice.get_colors device)
      as [|[group colors] rest IH]; [reflexivity|].
    simpl. rewrite (Hempty group colors) by (apply elem_of_cons; auto).
    simpl. apply IH. intros g cs Hin. apply (Hempty g).
    apply elem_of_cons. auto. }
  unfold async_turn_on. rewrite Hnil. simpl.
  destruct (ATTR_HS_COLOR kwargs); reflexivity.
Qed.

Lemma async_turn_on_without_colors_witness :
  let device :=
    {| FritzhomeDevice.present := true; FritzhomeDevice.state := false;
       FritzhomeDevice.level := None; FritzhomeDevice.hue := None;
       FritzhomeDevice.saturation := None;
       FritzhomeDevice.color_temp := Some 2700;
       FritzhomeDevice.color_mode := 1;
       FritzhomeDevice.supported_color_mode := 1;
       FritzhomeDevice.get_colors := [("Rot", [])];
       FritzhomeDevice.get_color_temps := [2700; 6500] |} in
  async_turn_on Color.color_temperature_mired_to_kelvin (init device)
    {| ATTR_HS_COLOR := Some (12#1, 60#1)%Q; ATTR_COLOR_TEMP := None |}
    always_ok []
  = async_turn_on Color.color_temperature_mired_to_kelvin (init device)
      {| ATTR_HS_COLOR := None; ATTR_COLOR_TEMP := None |} always_ok [].
Proof.
  intros device.
  apply (async_turn_on_without_colors Color.color_temperature_mired_to_kelvin
           device
           {| ATTR_HS_COLOR := Some (12#1, 60#1)%Q; ATTR_COLOR_TEMP := None |}
           always_ok []).
  intros group colors Hin. apply list_elem_of_singleton in Hin.
  injection Hin as _ ->. reflexivity.
Defined.

(** X10.  The set of supported colour modes built by [__init__] is never
    empty, and ["onoff"] is never combined with another mode: it is in
    the set exactly for the mode codes other than 1, 4 and 5, and then
    it is the whole set. *)
Theorem supported_color_modes_onoff_alone (device : FritzhomeDevice.t) :
  let code := FritzhomeDevice.supported_color_mode device in
  let modes := supported_color_modes (init device) in
  modes <> ∅
  /\ ("onoff" ∈ modes <-> code <> 1 /\ code <> 4 /\ code <> 5)
  /\ ("onoff" ∈ modes -> modes = {[ "onoff" ]}).
Proof.
  intros code modes. unfold modes, supported_color_modes, init,
    COLOR_MODE_COLOR_TEMP, COLOR_MODE_HS, COLOR_MODE_ONOFF. simpl. fold code.
  assert (Hne : forall x : string, ({[ x ]} : gset string) <> ∅).
  { intros x Hx. apply (not_elem_of_empty (C:=gset string) x).
    rewrite <- Hx. apply elem_of_singleton. reflexivity. }
  destruct (Z.eqb_spec code 1) as [E1|N1].
  { split; [apply Hne|]. split.
    - split; [intros Hin; apply elem_of_singleton in Hin; discriminate | lia].
    - intros Hin. apply elem_of_singleton in Hin. discriminate. }
  destruct (Z.eqb_spec code 4) as [E4|N4].
  { split; [apply Hne|]. split.
    - split; [intros Hin; apply elem_of_singleton in Hin; discriminate | lia].
    - intros Hin. apply elem_of_singleton in Hin. discriminate. }
  destruct (Z.eqb_spec code 5) as [E5|N5].
  { assert (Hout : "onoff" ∉ ({[ "hs"; "color_temp" ]} : gset string)).
    { intros Hin. apply elem_of_union in Hin as [Hin|Hin];
        apply elem_of_singleton in Hin; discriminate. }
    split; [|split].
    - intros Hx. apply (not_elem_of_empty (C:=gset string) "hs").
      rewrite <- Hx. apply elem_of_union. left. apply elem_of_singleton.
      reflexivity.
    - split; [intros Hin; contradiction | lia].
    - intros Hin. contradiction. }
  split; [apply Hne|]. split.
  - split; [auto|]. intros _. apply elem_of_singleton. reflexivity.
  - reflexivity.
Qed.

(** ** The reported colour temperature and the advertised range *)

(** X11.  With the reciprocal conversion (rounded down), the [color_temp]
    the entity reports for a device at [kelvin > 0] lies within
    [min_mireds .. max_mireds] exactly when [2696 <= kelvin <= 6535]:
    the range 2700 K to 6500 K named beside the two bounds is inside,
    and a value outside is reported as it is, not clamped. *)
Theorem color_temp_within_mireds_iff
    (device : FritzhomeDevice.t) (self : FritzboxLight) (kelvin : Z) :
  FritzhomeDevice.color_temp device = Some kelvin ->
  0 < kelvin ->
  self = init device ->
  exists mired,
    color_temp Color.color_temperature_kelvin_to_mired device = Ok (Some mired)
    /\ (min_mireds self <= mired <= max_mireds self
        <-> 2696 <= kelvin <= 6535).
Proof.
  intros Hfield Hpos ->. exists (1000000 / kelvin). split.
  - unfold color_temp, Color.color_temperature_kelvin_to_mired.
    rewrite Hfield. destruct (Z.eqb_spec kelvin 0); [lia | reflexivity].
  - unfold min_mireds, max_mireds. simpl.
    pose proof (Z.mul_div_le 1000000 kelvin Hpos) as Hlow.
    pose proof (Z.mul_succ_div_gt 1000000 kelvin Hpos) as Hhigh.
    split; intros [H1 H2]; split; nia.
Qed.

Lemma color_temp_within_mireds_iff_witness :
  exists mired,
    color_temp Color.color_temperature_kelvin_to_mired (bulb true true 1 5)
    = Ok (Some mired)
    /\ (min_mireds (init (bulb true true 1 5)) <= mired
        <= max_mireds (init (bulb true true 1 5))
        <-> 2696 <= 2700 <= 6535).
Proof.
  apply (color_temp_within_mireds_iff (bulb true true 1 5)
           (init (bulb true true 1 5)) 2700).
  - reflexivity.
  - lia.
  - reflexivity.
Defined.

Lemma searches_raise_iff_empty_witness :
  _nearest_supported_color (light_of [] [2700]) (12#1, 60#1)%Q
  = Raise ValueError
  /\ _nearest_supported_color_temp (light_of [(10, 50)] []) 5000
     = Raise ValueError.
Proof.
  split.
  - apply (proj1 (searches_raise_iff_empty (light_of [] [2700])
                    (12#1, 60#1)%Q 5000 ValueError)).
    split; reflexivity.
  - apply (proj2 (searches_raise_iff_empty (light_of [(10, 50)] [])
                    (12#1, 60#1)%Q 5000 ValueError)).
    split; reflexivity.
Defined.

Lemma supported_color_modes_onoff_alone_witness :
  supported_color_modes (init (bulb true true 0 99)) = {[ "onoff" ]}.
Proof.
  destruct (supported_color_modes_onoff_alone (bulb true true 0 99))
    as (_ & Hiff & Halone).
  apply Halone. apply Hiff. simpl. lia.
Defined.

(** ** The command [async_turn_on] sends *)

(** What a colour search that returned has found. *)
Lemma nearest_supported_color_facts
    (self : FritzboxLight) (requested : Q * Q) (r : HsColor) :
  _nearest_supported_color self requested = Ok r ->
  r ∈ _supported_colors self
  /\ (forall c, c ∈ _supported_colors self ->
        (hue_key requested (fst r) <= hue_key requested (fst c))%Q)
  /\ (forall c, c ∈ _supported_colors self -> fst c = fst r ->
        (sat_key requested (snd r) <= sat_key requested (snd c))%Q)
  /\ (exists p1 c0 p2,
        _supported_colors self = p1 ++ c0 :: p2 /\ fst c0 = fst r
        /\ forall c, c ∈ p1 ->
             (hue_key requested (fst r) < hue_key requested (fst c))%Q).
Proof.
  intros Hr. destruct (nearest_supported_color_stages _ _ _ Hr) as [Hh Hs].
  destruct (py_min_least _ _ _ Hh) as [_ Hhleast].
  destruct (py_min_least _ _ _ Hs) as [_ Hsleast].
  split; [exact (nearest_supported_color_member _ _ _ Hr)|]. split; [|split].
  - intros c Hc. apply Qltb_ge. apply Hhleast, elem_of_map_fst, Hc.
  - intros [ch cs] Hc Hch. simpl in Hch. subst ch.
    apply Qltb_ge. apply Hsleast, elem_of_sat_values. exact Hc.
  - destruct (py_min_first (hue_key requested)
                (map fst (_supported_colors self)))
      as (h & l1 & l2 & Hh' & Heq & Hbefore & _).
    { intros Hnil. rewrite Hnil in Hh. discriminate. }
    assert (h = fst r) as -> by congruence.
    destruct (map_fst_split _ _ _ _ Heq) as (p1 & c0 & p2 & Hcolors & Hp1 & Hc0).
    exists p1, c0, p2. repeat split; try assumption.
    intros c Hc. apply Qltb_lt. apply Hbefore.
    rewrite <- Hp1. apply elem_of_map_fst, Hc.
Qed.

(** What a temperature search that returned has found. *)
Lemma nearest_supported_color_temp_facts
    (self : FritzboxLight) (requested t : Z) :
  _nearest_supported_color_temp self requested = Ok t ->
  t ∈ _supported_color_temps self
  /\ (forall y, y ∈ _supported_color_temps self ->
        Z.abs (t - requested) <= Z.abs (y - requested))
  /\ exists l1 l2,
       _supported_color_temps self = l1 ++ t :: l2
       /\ forall y, y ∈ l1 -> Z.abs (t - requested) < Z.abs (y - requested).
Proof.
  intros Ht.
  destruct (nearest_supported_color_temp_least _ _ _ Ht) as [Hin Hleast].
  split; [exact Hin|]. split; [exact Hleast|].
  unfold _nearest_supported_color_temp in Ht.
  destruct (py_min_first (fun x => Z.abs (x - requested))
              (_supported_color_temps self))
    as (t' & l1 & l2 & Ht' & Heq & Hbefore & _).
  { intros Hnil. rewrite Hnil in Ht. discriminate. }
  assert (t' = t) as -> by congruence.
  exists l1, l2. split; [exact Heq|].
  intros y Hy. apply Hbefore in Hy. apply Z.ltb_lt in Hy. exact Hy.
Qed.

(** C4, as amended.  A call of [async_turn_on] sends at most one device
    command.  With a requested hs colour and a non-empty list of
    supported colours it sends [set_color] with the supported pair the
    two-stage search selects (a listed pair, of a hue nearest to the
    requested hue and first listed among such hues, and of the nearest
    saturation among the pairs of that hue), whether or not a colour
    temperature is requested too.  Otherwise, with a requested colour
    temperature and a non-empty list of supported temperatures: when the
    conversion of the mireds returns a Kelvin value, it sends
    [set_color_temp] with the listed temperature nearest to that value,
    the first listed on a tie; when the conversion raises, it sends
    nothing, calls no collaborator and raises the same exception.
    Otherwise it sends the plain [set_state_on]. *)
Theorem async_turn_on_dispatch (mired_to_kelvin : Z -> result Z)
    (self : FritzboxLight) (kwargs : Kwargs) (env : Env) (log : list Call) :
  let on := async_turn_on mired_to_kelvin self kwargs in
  let sent := device_commands (issued on env log) in
  (forall requested,
      ATTR_HS_COLOR kwargs = Some requested ->
      _supported_colors self <> [] ->
      exists r,
        sent = [SetColor r]
        /\ r ∈ _supported_colors self
        /\ (forall c, c ∈ _supported_colors self ->
              (hue_key requested (fst r) <= hue_key requested (fst c))%Q)
        /\ (forall c, c ∈ _supported_colors self -> fst c = fst r ->
              (sat_key requested (snd r) <= sat_key requested (snd c))%Q)
        /\ (exists p1 c0 p2,
              _supported_colors self = p1 ++ c0 :: p2 /\ fst c0 = fst r
              /\ forall c, c ∈ p1 ->
                   (hue_key requested (fst r) < hue_key requested (fst c))%Q))
  /\ (forall mireds kelvin,
         ATTR_HS_COLOR kwargs = None \/ _supported_colors self = [] ->
         ATTR_COLOR_TEMP kwargs = Some mireds ->
         _supported_color_temps self <> [] ->
         mired_to_kelvin mireds = Ok kelvin ->
         exists t,
           sent = [SetColorTemp t]
           /\ t ∈ _supported_color_temps self
           /\ (forall y, y ∈ _supported_color_temps self ->
                 Z.abs (t - kelvin) <= Z.abs (y - kelvin))
           /\ exists l1 l2,
                _supported_color_temps self = l1 ++ t :: l2
                /\ forall y, y ∈ l1 ->
                     Z.abs (t - kelvin) < Z.abs (y - kelvin))
  /\ (forall mireds e,
         ATTR_HS_COLOR kwargs = None \/ _supported_colors self = [] ->
         ATTR_COLOR_TEMP kwargs = Some mireds ->
         _supported_color_temps self <> [] ->
         mired_to_kelvin mireds = Raise e ->
         sent = [] /\ issued on env log = [] /\ outcome on env log = Raise e)
  /\ (ATTR_HS_COLOR kwargs = None \/ _supported_colors self = [] ->
      ATTR_COLOR_TEMP kwargs = None \/ _supported_color_temps self = [] ->
      sent = [SetStateOn]).
Proof.
  intros on sent.
  assert (Hsent : forall c,
             is_device_command c = true ->
             (forall env log,
                 on env log
                 = (await c ≫= fun _ => await AsyncRefresh) env log) ->
             sent = [c]).
  { intros c Hc Hrun. unfold sent.
    destruct (await_then_refresh_shape on c env log
                (match env (log ++ [c]) AsyncRefresh with
                 | None => Ok tt
                 | Some e => Raise e
                 end)) as [(e & _ & -> & _)|(_ & -> & _)].
    - rewrite Hrun, await_then_refresh_run. reflexivity.
    - apply device_commands_one, Hc.
    - apply device_commands_then_refresh, Hc. }
  split; [|split; [|split]].
  - intros requested Hreq Hne.
    destruct (async_turn_on_hs mired_to_kelvin self kwargs requested Hreq Hne)
      as (r & Hr & Hrun).
    exists r. split; [apply Hsent; [reflexivity | exact Hrun]|].
    apply (nearest_supported_color_facts _ _ _ Hr).
  - intros mireds kelvin Hhs Hreq Hne Hk.
    destruct (async_turn_on_color_temp mired_to_kelvin self kwargs
                mireds kelvin Hhs Hreq Hne Hk) as (t & Ht & Hrun).
    exists t. split; [apply Hsent; [reflexivity | exact Hrun]|].
    apply (nearest_supported_color_temp_facts _ _ _ Ht).
  - intros mireds e Hhs Hreq Hne Hk.
    pose proof (async_turn_on_conversion_raises mired_to_kelvin self kwargs
                  mireds e Hhs Hreq Hne Hk env log) as Hrun.
    fold on in Hrun.
    assert (Hiss : issued on env log = []).
    { apply issued_app. rewrite Hrun. simpl. rewrite app_nil_r. reflexivity. }
    unfold sent. rewrite Hiss. repeat split.
    unfold outcome. rewrite Hrun. reflexivity.
  - intros Hhs Hct. apply Hsent; [reflexivity|].
    apply async_turn_on_plain; assumption.
Qed.

Lemma async_turn_on_dispatch_witness :
  let self := light_of [(10,50); (10,80); (40,90)] [2700; 3000; 4000; 6500] in
  let sent kwargs :=
    device_commands
      (issued (async_turn_on Color.color_temperature_mired_to_kelvin self kwargs)
              always_ok []) in
  (exists r,
      sent {| ATTR_HS_COLOR := Some (12#1, 60#1)%Q;
              ATTR_COLOR_TEMP := Some 200 |} = [SetColor r]
      /\ r ∈ [(10,50); (10,80); (40,90)])
  /\ (exists t,
         sent {| ATTR_HS_COLOR := None; ATTR_COLOR_TEMP := Some 200 |}
         = [SetColorTemp t]
         /\ t ∈ [2700; 3000; 4000; 6500])
  /\ sent {| ATTR_HS_COLOR := None; ATTR_COLOR_TEMP := Some 0 |} = []
  /\ sent {| ATTR_HS_COLOR := None; ATTR_COLOR_TEMP := None |} = [SetStateOn].
Proof.
  intros self sent. split; [|split; [|split]].
  - destruct (proj1 (async_turn_on_dispatch
                       Color.color_temperature_mired_to_kelvin self
                       {| ATTR_HS_COLOR := Some (12#1, 60#1)%Q;
                          ATTR_COLOR_TEMP := Some 200 |} always_ok [])
                (12#1, 60#1)%Q) as (r & Hsent & Hin & _).
    + reflexivity.
    + simpl. discriminate.
    + exists r. split; [exact Hsent | exact Hin].
  - destruct (proj1 (proj2 (async_turn_on_dispatch
                              Color.color_temperature_mired_to_kelvin self
                              {| ATTR_HS_COLOR := None;
                                 ATTR_COLOR_TEMP := Some 200 |} always_ok []))
                200 5000) as (t & Hsent & Hin & _).
    + left. reflexivity.
    + reflexivity.
    + simpl. discriminate.
    + reflexivity.
    + exists t. split; [exact Hsent | exact Hin].
  - apply (proj1 (proj2 (proj2 (async_turn_on_dispatch
                                  Color.color_temperature_mired_to_kelvin self
                                  {| ATTR_HS_COLOR := None;
                                     ATTR_COLOR_TEMP := Some 0 |}
                                  always_ok [])))
             0 ZeroDivisionError).
    + left. reflexivity.
    + reflexivity.
    + simpl. discriminate.
    + reflexivity.
  - apply (proj2 (proj2 (proj2 (async_turn_on_dispatch
                                  Color.color_temperature_mired_to_kelvin self
                                  {| ATTR_HS_COLOR := None;
                                     ATTR_COLOR_TEMP := None |}
                                  always_ok [])))).
    + left. reflexivity.
    + left. reflexivity.
Defined.

(** C4, as stated, fails: a call that requests a colour temperature of 0
    mireds, on an entity with supported temperatures, raises
    [ZeroDivisionError] in the conversion and sends no device command. *)
Lemma async_turn_on_zero_mireds_counterexample :
  let self := light_of [] [2700; 3000; 4000; 6500] in
  let kwargs := {| ATTR_HS_COLOR := None; ATTR_COLOR_TEMP := Some 0 |} in
  let on := async_turn_on Color.color_temperature_mired_to_kelvin self kwargs in
  _supported_color_temps self <> []
  /\ outcome on always_ok [] = Raise ZeroDivisionError
  /\ device_commands (issued on always_ok []) = []
  /\ ~ exists c, device_commands (issued on always_ok []) = [c].
Proof.
  intros self kwargs on. split; [discriminate|]. split; [reflexivity|].
  split; [reflexivity|]. intros [c Hc]. discriminate.
Qed.
